(** * Routing, quality scoring and synthesis: a shallow embedding

    The development follows three source files:
    - [src/mcp_protocol.py]            (the pydantic value classes),
    - [src/mcp_server/quality_scorer.py] (class [QualityScorer]),
    - [src/content_router/router.py]   (class [ContentRouter]).

    Conventions of the embedding.
    - A Python [float] is read as an exact rational ([Q]); equalities
      between scores are stated with [==] ([Qeq]).  Rounding, infinities
      and NaN of binary64 are outside the model.
    - A Python [str] is a [string]; [int] is [Z]; [len] results are [nat].
    - A naive UTC [datetime] is the number of microseconds since a fixed
      epoch ([Z]); the clock reading is passed as an argument.
    - A [dict] is an association list in insertion order with unique keys.
    - A method that may raise returns a [result]; a method that mutates
      [self] also returns the object after the call, so that the state
      left behind by an exception is visible.
    - Calls to the logger are dropped. *)

From Stdlib Require Import ZArith QArith Qminmax Lqa Lia List String Ascii Bool.
From Stdlib Require Import DecimalString Permutation Sorted.
Import ListNotations.

Local Open Scope Q_scope.

(** ** Python prelude *)

Module Py.

Inductive exn : Type :=
| ValueError (msg : string)
| ZeroDivisionError (msg : string)
| KeyError
| TypeError (msg : string)
| ValidationError (field : string).

Inductive result (A : Type) : Type :=
| Ok (a : A)
| Raise (e : exn).

Arguments Ok {A} a.
Arguments Raise {A} e.

Definition bind {A B : Type} (r : result A) (k : A -> result B) : result B :=
  match r with
  | Ok a => k a
  | Raise e => Raise e
  end.

(** [dict.get(k)] / [k in d] on an insertion-ordered dictionary. *)
Fixpoint dict_get {K V : Type} (eqb : K -> K -> bool) (k : K)
  (d : list (K * V)) : option V :=
  match d with
  | [] => None
  | (k', v) :: rest => if eqb k' k then Some v else dict_get eqb k rest
  end.

(** [d[k] = v]: an existing key keeps its position, a new key goes last. *)
Fixpoint dict_set {K V : Type} (eqb : K -> K -> bool) (k : K) (v : V)
  (d : list (K * V)) : list (K * V) :=
  match d with
  | [] => [(k, v)]
  | (k', v') :: rest =>
      if eqb k' k then (k', v) :: rest
      else (k', v') :: dict_set eqb k v rest
  end.

(** [d[k]], which raises [KeyError] on a missing key. *)
Definition dict_item {K V : Type} (eqb : K -> K -> bool) (k : K)
  (d : list (K * V)) : result V :=
  match dict_get eqb k d with
  | Some v => Ok v
  | None => Raise KeyError
  end.

Definition keys {K V : Type} (d : list (K * V)) : list K := map fst d.
Definition values {K V : Type} (d : list (K * V)) : list V := map snd d.

(** [sum(xs)]: left to right, starting from [0]. *)
Definition sum (xs : list Q) : Q := fold_left Qplus xs 0.

(** [a / b] on floats. *)
Definition truediv (a b : Q) : result Q :=
  if Qeq_bool b 0 then Raise (ZeroDivisionError "float division by zero")
  else Ok (a / b).

(** [a <= b], [a < b] ... as Python booleans. *)
Definition le (a b : Q) : bool := Qle_bool a b.
Definition lt (a b : Q) : bool := negb (Qle_bool b a).
Definition ge (a b : Q) : bool := Qle_bool b a.

(** Truth value of a [str]: only the empty string is false. *)
Definition truthy (s : string) : bool :=
  match s with
  | EmptyString => false
  | String _ _ => true
  end.

(** Truth value of an [Optional[str]]. *)
Definition truthy_opt (o : option string) : bool :=
  match o with
  | None => false
  | Some s => truthy s
  end.

(** The characters [str.split()] and [str.isspace] treat as blank
    (ASCII range): TAB, LF, VT, FF, CR, FS, GS, RS, US and SPACE. *)
Definition isspace (c : ascii) : bool :=
  let n := nat_of_ascii c in
  ((9 <=? n) && (n <=? 13) || (28 <=? n) && (n <=? 32))%nat.

(** [s.split()]: maximal runs of non-blank characters.  [cur] holds the
    run being read, in reverse. *)
Fixpoint split_aux (s : string) (cur : list ascii) : list string :=
  let flush (k : list string) :=
    match cur with
    | [] => k
    | _ => string_of_list_ascii (rev cur) :: k
    end in
  match s with
  | EmptyString => flush []
  | String c rest =>
      if isspace c then flush (split_aux rest [])
      else split_aux rest (c :: cur)
  end.

Definition split (s : string) : list string := split_aux s [].

(** [s.lower()] on the ASCII letters. *)
Definition lower_ascii (c : ascii) : ascii :=
  let n := nat_of_ascii c in
  if ((65 <=? n) && (n <=? 90))%nat then ascii_of_nat (n + 32) else c.

Fixpoint lower (s : string) : string :=
  match s with
  | EmptyString => EmptyString
  | String c rest => String (lower_ascii c) (lower rest)
  end.

(** [sep.join(xs)]. *)
Fixpoint join (sep : string) (xs : list string) : string :=
  match xs with
  | [] => EmptyString
  | [x] => x
  | x :: rest => (x ++ sep ++ join sep rest)%string
  end.

(** [t in s] for strings. *)
Fixpoint contains (t s : string) : bool :=
  if String.prefix t s then true
  else match s with
       | EmptyString => false
       | String _ rest => contains t rest
       end.

(** [str(n)] / [f"{n}"] for a non-negative [int]. *)
Definition str_of_nat (n : nat) : string :=
  NilZero.string_of_uint (Nat.to_uint n).

End Py.

Import Py.

Notation "x <- c1 ;; c2" := (Py.bind c1 (fun x => c2))
  (at level 61, c1 at next level, right associativity).

(** ** [src/utils.py] *)

Inductive ContentQuality : Type := LOW | MEDIUM | HIGH | VERIFIED.

(** ** [src/mcp_server/quality_scorer.py] *)

Module Scorer.

Inductive ScoringFactors : Type :=
| SOURCE_RELIABILITY
| CONTENT_FRESHNESS
| RELEVANCE
| COMPLETENESS
| ACCURACY
| CITATION_COUNT
| USER_FEEDBACK
| PROCESSING_QUALITY.

Definition factor_eqb (a b : ScoringFactors) : bool :=
  match a, b with
  | SOURCE_RELIABILITY, SOURCE_RELIABILITY
  | CONTENT_FRESHNESS, CONTENT_FRESHNESS
  | RELEVANCE, RELEVANCE
  | COMPLETENESS, COMPLETENESS
  | ACCURACY, ACCURACY
  | CITATION_COUNT, CITATION_COUNT
  | USER_FEEDBACK, USER_FEEDBACK
  | PROCESSING_QUALITY, PROCESSING_QUALITY => true
  | _, _ => false
  end.

(** The dataclass [ScoreComponent].  Its [reasoning] text is an f-string
    rendering of floats and is left out. *)
Record ScoreComponent : Type := mkComponent {
  factor : ScoringFactors;
  weight : Q;
  value : Q
}.

Definition calculate (c : ScoreComponent) : Q := value c * weight c.

Record QualityScorer : Type := mkScorer {
  factor_weights : list (ScoringFactors * Q);
  source_reliability_scores : list (string * Q);
  max_freshness_days : Z
}.

(** [QualityScorer.__init__] *)
Definition init : QualityScorer := {|
  factor_weights :=
    [ (SOURCE_RELIABILITY, 0.25); (CONTENT_FRESHNESS, 0.15);
      (RELEVANCE, 0.25); (COMPLETENESS, 0.15); (ACCURACY, 0.15);
      (CITATION_COUNT, 0.03); (USER_FEEDBACK, 0.02) ];
  source_reliability_scores :=
    [ ("memory"%string, 0.95); ("verified_api"%string, 0.90);
      ("published_research"%string, 0.85); ("news_aggregator"%string, 0.75);
      ("web_search"%string, 0.65); ("social_media"%string, 0.40);
      ("user_generated"%string, 0.50) ];
  max_freshness_days := 365
|}.

Definition _score_source_reliability (self : QualityScorer)
  (source_type : string) : Q :=
  match dict_get String.eqb source_type (source_reliability_scores self) with
  | Some v => v
  | None => 0.5
  end.

Definition microseconds_per_day : Z := 86400000000.

(** [(datetime.utcnow() - created_at).days]: a [timedelta] is normalised
    so that [days] is the floor of the difference. *)
Definition _days_old (now created_at : Z) : Z :=
  ((now - created_at) / microseconds_per_day)%Z.

Definition freshness_of_days (days_old : Z) : Q :=
  if (days_old <=? 30)%Z then 1.0
  else if (days_old <=? 90)%Z then 0.9
  else if (days_old <=? 180)%Z then 0.75
  else if (days_old <=? 365)%Z then 0.5
  else Qmax 0.2 (1.0 - (inject_Z days_old / inject_Z (365 * 2))).

Definition _score_freshness (now created_at : Z) : Q :=
  freshness_of_days (_days_old now created_at).

Definition _score_completeness (content : string) (base_score : Q) : Q :=
  let word_count := List.length (Py.split content) in
  let length_score := Qmin (inject_Z (Z.of_nat word_count) / 500) 1.0 in
  (length_score * 0.3) + (base_score * 0.7).

Definition _determine_quality_level (score : Q) : ContentQuality :=
  if Py.ge score 0.9 then VERIFIED
  else if Py.ge score 0.75 then HIGH
  else if Py.ge score 0.5 then MEDIUM
  else LOW.

Record ScoreResult : Type := mkScoreResult {
  overall_score : Q;
  quality_level : ContentQuality;
  components : list ScoreComponent
}.

Definition weight_of (self : QualityScorer) (f : ScoringFactors) : result Q :=
  dict_item factor_eqb f (factor_weights self).

(** [QualityScorer.score_content]; [now] is the reading of
    [datetime.utcnow()]. *)
Definition score_content (self : QualityScorer) (now : Z)
  (content source_type : string) (created_at : Z)
  (relevance_score completeness_score accuracy_score : Q)
  (citation_count : Z) (user_feedback_score : Q) : result ScoreResult :=
  let source_reliability := _score_source_reliability self source_type in
  w1 <- weight_of self SOURCE_RELIABILITY ;;
  let c1 := mkComponent SOURCE_RELIABILITY w1 source_reliability in
  let freshness := _score_freshness now created_at in
  w2 <- weight_of self CONTENT_FRESHNESS ;;
  let c2 := mkComponent CONTENT_FRESHNESS w2 freshness in
  w3 <- weight_of self RELEVANCE ;;
  let c3 := mkComponent RELEVANCE w3 relevance_score in
  let completeness := _score_completeness content completeness_score in
  w4 <- weight_of self COMPLETENESS ;;
  let c4 := mkComponent COMPLETENESS w4 completeness in
  w5 <- weight_of self ACCURACY ;;
  let c5 := mkComponent ACCURACY w5 accuracy_score in
  let citation_score := Qmin (inject_Z citation_count / 10) 1.0 in
  w6 <- weight_of self CITATION_COUNT ;;
  let c6 := mkComponent CITATION_COUNT w6 citation_score in
  w7 <- weight_of self USER_FEEDBACK ;;
  let c7 := mkComponent USER_FEEDBACK w7 user_feedback_score in
  let components := [c1; c2; c3; c4; c5; c6; c7] in
  let overall_score := Py.sum (map calculate components) in
  let overall_score := Qmin (Qmax overall_score 0) 1 in
  let quality_level := _determine_quality_level overall_score in
  Ok (mkScoreResult overall_score quality_level components).

(** The loop [for key in self.factor_weights: self.factor_weights[key] /= total];
    an exception leaves the entries already divided as they are. *)
Fixpoint normalize_loop (ks : list ScoringFactors) (total : Q)
  (fw : list (ScoringFactors * Q)) : result unit * list (ScoringFactors * Q) :=
  match ks with
  | [] => (Ok tt, fw)
  | key :: rest =>
      match dict_item factor_eqb key fw with
      | Raise e => (Raise e, fw)
      | Ok v =>
          match Py.truediv v total with
          | Raise e => (Raise e, fw)
          | Ok q => normalize_loop rest total (dict_set factor_eqb key q fw)
          end
      end
  end.

Definition with_weights (self : QualityScorer)
  (fw : list (ScoringFactors * Q)) : QualityScorer :=
  {| factor_weights := fw;
     source_reliability_scores := source_reliability_scores self;
     max_freshness_days := max_freshness_days self |}.

(** [QualityScorer.set_factor_weight] *)
Definition set_factor_weight (f : ScoringFactors) (w : Q)
  (self : QualityScorer) : result unit * QualityScorer :=
  if negb (Py.le 0 w && Py.le w 1) then
    (Raise (ValueError "Weight must be between 0 and 1"), self)
  else
    let fw := dict_set factor_eqb f w (factor_weights self) in
    let total := Py.sum (Py.values fw) in
    let '(r, fw') := normalize_loop (Py.keys fw) total fw in
    (r, with_weights self fw').

(** [QualityScorer.set_source_reliability] *)
Definition set_source_reliability (source_type : string) (reliability : Q)
  (self : QualityScorer) : result unit * QualityScorer :=
  if negb (Py.le 0 reliability && Py.le reliability 1) then
    (Raise (ValueError "Reliability must be between 0 and 1"), self)
  else
    (Ok tt,
     {| factor_weights := factor_weights self;
        source_reliability_scores :=
          dict_set String.eqb source_type reliability
            (source_reliability_scores self);
        max_freshness_days := max_freshness_days self |}).

End Scorer.

(** ** [src/mcp_protocol.py] *)

(** [ContentSource(BaseModel)].  The class sets neither [frozen] nor a
    [__hash__] of its own: pydantic gives it a field-wise [__eq__], and a
    class that defines [__eq__] without [__hash__] is unhashable. *)
Module ContentSource.

Record t : Type := mk {
  source_id : string;
  source_type : string;
  name : string;
  quality_score : Q;
  confidence_score : Q;
  last_updated : Z;
  metadata : list (string * string)
}.

(** [dict.__eq__] on string-valued dictionaries: same keys, same values. *)
Definition metadata_eqb (m1 m2 : list (string * string)) : bool :=
  (List.length m1 =? List.length m2)%nat &&
  forallb (fun kv =>
             match dict_get String.eqb (fst kv) m2 with
             | Some v => String.eqb v (snd kv)
             | None => false
             end) m1.

(** [BaseModel.__eq__]: all fields equal. *)
Definition eqb (a b : t) : bool :=
  String.eqb (source_id a) (source_id b) &&
  String.eqb (source_type a) (source_type b) &&
  String.eqb (name a) (name b) &&
  Qeq_bool (quality_score a) (quality_score b) &&
  Qeq_bool (confidence_score a) (confidence_score b) &&
  Z.eqb (last_updated a) (last_updated b) &&
  metadata_eqb (metadata a) (metadata b).

(** [hash(source)]: [__hash__] is [None]. *)
Definition hash (a : t) : result Z :=
  Raise (TypeError "unhashable type: 'ContentSource'").

End ContentSource.

Module ContentBlock.

Record t : Type := mk {
  content_id : string;
  source : ContentSource.t;
  title : option string;
  body : string;
  summary : option string;
  keywords : list string;
  relevance_score : Q;
  created_at : Z;
  updated_at : Z
}.

End ContentBlock.

(** One entry of [SynthesizedContent.contradictions]. *)
Record Contradiction : Type := mkContradiction {
  source1 : string;
  source2 : string;
  description : string
}.

Module SynthesizedContent.

Record t : Type := mk {
  synthesis_id : string;
  query : string;
  aggregated_content : string;
  sources : list ContentSource.t;
  quality_score : Q;
  contradictions : list Contradiction;
  gaps : list string;
  recommendations : list string;
  timestamp : Z
}.

(** The constructor call: pydantic checks [quality_score] against
    [ge=0, le=1] and raises a [ValidationError] otherwise. *)
Definition new (synthesis_id query aggregated_content : string)
  (sources : list ContentSource.t) (quality_score : Q)
  (contradictions : list Contradiction) (gaps recommendations : list string)
  (timestamp : Z) : result t :=
  if Py.ge quality_score 0 && Py.le quality_score 1 then
    Ok (mk synthesis_id query aggregated_content sources quality_score
          contradictions gaps recommendations timestamp)
  else Raise (ValidationError "quality_score").

End SynthesizedContent.

(** [set(iterable)] over [ContentSource] values: every element is hashed on
    insertion; equal elements are kept once.  (The order in which a set is
    iterated depends on the hashes; first-insertion order stands for it.) *)
Fixpoint set_of_sources (xs acc : list ContentSource.t)
  : result (list ContentSource.t) :=
  match xs with
  | [] => Ok acc
  | x :: rest =>
      _ <- ContentSource.hash x ;;
      set_of_sources rest
        (if existsb (ContentSource.eqb x) acc then acc else acc ++ [x])
  end.

(** [sorted(xs, key=..., reverse=True)] is stable: elements with equal keys
    keep their original order.  [lt a b] reads [key a < key b]. *)
Fixpoint insert_desc {A : Type} (lt : A -> A -> bool) (x : A) (l : list A)
  : list A :=
  match l with
  | [] => [x]
  | y :: rest => if lt x y then y :: insert_desc lt x rest else x :: y :: rest
  end.

Fixpoint sorted_desc {A : Type} (lt : A -> A -> bool) (l : list A) : list A :=
  match l with
  | [] => []
  | x :: rest => insert_desc lt x (sorted_desc lt rest)
  end.

(** ** [src/content_router/router.py] *)

Module Router.

Inductive RoutingStrategy : Type :=
| MEMORY_FIRST
| EXTERNAL_FIRST
| BALANCED
| MEMORY_ONLY
| EXTERNAL_ONLY.

(** [RoutingStrategy] is a [str] enumeration: a member compares equal to
    the plain string that is its value. *)
Definition strategy_value (s : RoutingStrategy) : string :=
  match s with
  | MEMORY_FIRST => "memory_first"
  | EXTERNAL_FIRST => "external_first"
  | BALANCED => "balanced"
  | MEMORY_ONLY => "memory_only"
  | EXTERNAL_ONLY => "external_only"
  end.

Record RoutingDecision : Type := mkDecision {
  strategy : RoutingStrategy;
  sources_to_query : list string;
  expected_quality : Q;
  reasoning : string
}.

(** An entry of [registered_sources]; [Handler] is the type of the handler
    objects, which the router stores and never calls. *)
Record source_info (Handler : Type) : Type := mkInfo {
  type : string;
  handler : Handler;
  priority : Z;
  registered_at : Z
}.

Arguments mkInfo {Handler} _ _ _ _.
Arguments type {Handler} _.
Arguments handler {Handler} _.
Arguments priority {Handler} _.
Arguments registered_at {Handler} _.

Record metrics : Type := mkMetrics {
  queries_count : Q;
  successful_queries : Q;
  avg_response_time : Q;
  avg_quality_score : Q;
  hit_rate : Q
}.

Record log_entry : Type := mkLogEntry {
  log_query : string;
  log_strategy : string;
  log_sources : list string;
  log_expected_quality : Q;
  log_timestamp : string
}.

Record ContentRouter (Handler : Type) : Type := mkRouter {
  default_strategy : string;
  registered_sources : list (string * source_info Handler);
  source_metrics : list (string * metrics);
  memory_hit_threshold : Q;
  routing_decisions_log : list log_entry
}.

Arguments mkRouter {Handler} _ _ _ _ _.
Arguments default_strategy {Handler} _.
Arguments registered_sources {Handler} _.
Arguments source_metrics {Handler} _.
Arguments memory_hit_threshold {Handler} _.
Arguments routing_decisions_log {Handler} _.

(** [ContentRouter.__init__] *)
Definition init {Handler : Type} (default_strategy : string)
  : ContentRouter Handler :=
  mkRouter default_strategy [] [] 0.7 [].

(** [ContentRouter.register_source]; [now] is [datetime.utcnow()]. *)
Definition register_source {Handler : Type} (now : Z)
  (source_id source_type : string) (source_handler : Handler) (prio : Z)
  (self : ContentRouter Handler) : ContentRouter Handler :=
  mkRouter (default_strategy self)
    (dict_set String.eqb source_id
       (mkInfo source_type source_handler prio now) (registered_sources self))
    (dict_set String.eqb source_id (mkMetrics 0 0 0 0 0) (source_metrics self))
    (memory_hit_threshold self)
    (routing_decisions_log self).

Record source_listing : Type := mkListing {
  listing_id : string;
  listing_type : string;
  listing_priority : Z;
  listing_metrics : metrics
}.

Fixpoint listings {Handler : Type} (self : ContentRouter Handler)
  (items : list (string * source_info Handler)) : result (list source_listing) :=
  match items with
  | [] => Ok []
  | (source_id, info) :: rest =>
      m <- dict_item String.eqb source_id (source_metrics self) ;;
      tl <- listings self rest ;;
      Ok (mkListing source_id (type info) (priority info) m :: tl)
  end.

(** [ContentRouter.list_sources] *)
Definition list_sources {Handler : Type} (self : ContentRouter Handler)
  : result (list source_listing) :=
  ls <- listings self (registered_sources self) ;;
  Ok (sorted_desc
        (fun a b => (listing_priority a <? listing_priority b)%Z) ls).

(** [max(candidates, key=lambda x: x[1])]: the first candidate of greatest
    priority. *)
Fixpoint max_by_priority (best : string * Z) (rest : list (string * Z))
  : string * Z :=
  match rest with
  | [] => best
  | c :: rest' =>
      max_by_priority (if (snd best <? snd c)%Z then c else best) rest'
  end.

Definition candidates {Handler : Type} (self : ContentRouter Handler)
  (source_type : string) : list (string * Z) :=
  map (fun entry => (fst entry, priority (snd entry)))
    (filter (fun entry => String.eqb (type (snd entry)) source_type)
       (registered_sources self)).

(** [ContentRouter._get_source_by_type] *)
Definition _get_source_by_type {Handler : Type} (self : ContentRouter Handler)
  (source_type : string) : option string :=
  match candidates self source_type with
  | [] => None
  | c :: rest => Some (fst (max_by_priority c rest))
  end.

(** The request context, a dictionary no handler reads. *)
Definition RequestContext : Type := list (string * string).

(** An [Optional[str]] that passed an [if x:] test, as the string it is. *)
Definition the (o : option string) : string :=
  match o with
  | Some s => s
  | None => EmptyString
  end.

(** [ContentRouter._route_memory_first] *)
Definition _route_memory_first {Handler : Type} (self : ContentRouter Handler)
  (query : string) (context : RequestContext) : RoutingDecision :=
  let memory_source := _get_source_by_type self "memory" in
  let sources_to_query := @nil string in
  let reasoning := "Memory-first strategy: "%string in
  let '(sources_to_query, reasoning) :=
    if truthy_opt memory_source then
      let sources_to_query := sources_to_query ++ [the memory_source] in
      let reasoning := (reasoning ++ "querying memory first")%string in
      let external_source := _get_source_by_type self "web_search" in
      if truthy_opt external_source then
        (sources_to_query ++ [the external_source],
         (reasoning ++ ", with web fallback")%string)
      else (sources_to_query, reasoning)
    else
      let external_source := _get_source_by_type self "web_search" in
      if truthy_opt external_source then
        (sources_to_query ++ [the external_source],
         "No memory source available, using web search"%string)
      else (sources_to_query, reasoning) in
  let expected_quality :=
    if (1 <=? List.length sources_to_query)%nat then 0.8 else 0.5 in
  mkDecision MEMORY_FIRST sources_to_query expected_quality reasoning.

(** [ContentRouter._route_external_first] *)
Definition _route_external_first {Handler : Type}
  (self : ContentRouter Handler) (query : string) (context : RequestContext)
  : RoutingDecision :=
  let external_source := _get_source_by_type self "web_search" in
  let memory_source := _get_source_by_type self "memory" in
  let sources_to_query := @nil string in
  let sources_to_query :=
    if truthy_opt external_source then sources_to_query ++ [the external_source]
    else sources_to_query in
  let sources_to_query :=
    if truthy_opt memory_source then sources_to_query ++ [the memory_source]
    else sources_to_query in
  let reasoning :=
    ("External-first strategy: querying "
       ++ str_of_nat (List.length sources_to_query) ++ " sources")%string in
  mkDecision EXTERNAL_FIRST sources_to_query
    (if (List.length sources_to_query =? 2)%nat then 0.85 else 0.6)
    reasoning.

(** [ContentRouter._route_balanced] *)
Definition _route_balanced {Handler : Type} (self : ContentRouter Handler)
  (query : string) (context : RequestContext) : RoutingDecision :=
  let sources_to_query := Py.keys (registered_sources self) in
  let reasoning :=
    ("Balanced strategy: querying all "
       ++ str_of_nat (List.length sources_to_query) ++ " sources")%string in
  mkDecision BALANCED sources_to_query 0.9 reasoning.

(** [ContentRouter._route_memory_only] *)
Definition _route_memory_only {Handler : Type} (self : ContentRouter Handler)
  (query : string) (context : RequestContext) : RoutingDecision :=
  let memory_source := _get_source_by_type self "memory" in
  let sources_to_query :=
    if truthy_opt memory_source then [the memory_source] else [] in
  mkDecision MEMORY_ONLY sources_to_query
    (match sources_to_query with [] => 0.0 | _ => 0.75 end)
    "Memory-only strategy".

(** [ContentRouter._route_external_only] *)
Definition _route_external_only {Handler : Type} (self : ContentRouter Handler)
  (query : string) (context : RequestContext) : RoutingDecision :=
  let external_source := _get_source_by_type self "web_search" in
  let sources_to_query :=
    if truthy_opt external_source then [the external_source] else [] in
  mkDecision EXTERNAL_ONLY sources_to_query
    (match sources_to_query with [] => 0.0 | _ => 0.7 end)
    "External-only strategy".

(** [ContentRouter._log_routing_decision]; [stamp] is
    [datetime.utcnow().isoformat()]. *)
Definition _log_routing_decision {Handler : Type} (stamp : string)
  (decision : RoutingDecision) (query : string)
  (self : ContentRouter Handler) : ContentRouter Handler :=
  mkRouter (default_strategy self) (registered_sources self)
    (source_metrics self) (memory_hit_threshold self)
    (routing_decisions_log self ++
       [mkLogEntry query (strategy_value (strategy decision))
          (sources_to_query decision) (expected_quality decision) stamp]).

(** [strategy or self.default_strategy] *)
Definition effective_strategy {Handler : Type} (self : ContentRouter Handler)
  (strategy : option string) : string :=
  if truthy_opt strategy then the strategy else default_strategy self.

(** [ContentRouter.route_request].  The [strategy] argument is whatever
    string (or [None]) the caller passes. *)
Definition route_request {Handler : Type} (stamp : string) (query : string)
  (strategy : option string) (context : option RequestContext)
  (self : ContentRouter Handler)
  : result RoutingDecision * ContentRouter Handler :=
  let strategy := effective_strategy self strategy in
  let context := match context with Some c => c | None => [] end in
  let decision :=
    if String.eqb strategy (strategy_value MEMORY_FIRST) then
      Ok (_route_memory_first self query context)
    else if String.eqb strategy (strategy_value EXTERNAL_FIRST) then
      Ok (_route_external_first self query context)
    else if String.eqb strategy (strategy_value BALANCED) then
      Ok (_route_balanced self query context)
    else if String.eqb strategy (strategy_value MEMORY_ONLY) then
      Ok (_route_memory_only self query context)
    else if String.eqb strategy (strategy_value EXTERNAL_ONLY) then
      Ok (_route_external_only self query context)
    else Raise (ValueError ("Unknown routing strategy: " ++ strategy)) in
  match decision with
  | Raise e => (Raise e, self)
  | Ok d => (Ok d, _log_routing_decision stamp d query self)
  end.

(** *** Synthesis *)

Definition nl : string := String (ascii_of_nat 10) EmptyString.

Definition relevance_lt (a b : ContentBlock.t) : bool :=
  Py.lt (ContentBlock.relevance_score a) (ContentBlock.relevance_score b).

(** [f"{block.body}{attribution}"] with
    [attribution = f"\n[Source: {block.source.name}]"]. *)
Definition attributed (block : ContentBlock.t) : string :=
  (ContentBlock.body block
     ++ (nl ++ "[Source: " ++ ContentSource.name (ContentBlock.source block)
            ++ "]"))%string.

(** [ContentRouter._aggregate_content] *)
Definition _aggregate_content (content_blocks : list ContentBlock.t) : string :=
  match content_blocks with
  | [] => EmptyString
  | _ =>
      let sorted_blocks := sorted_desc relevance_lt content_blocks in
      let aggregated := map attributed sorted_blocks in
      Py.join (nl ++ nl) aggregated
  end.

(** [ContentRouter._blocks_contradict] *)
Definition _blocks_contradict (block1 block2 : ContentBlock.t) : bool := false.

(** The inner loop [for block2 in content_blocks[i+1:]]. *)
Fixpoint contradictions_with (block1 : ContentBlock.t)
  (later : list ContentBlock.t) : list Contradiction :=
  match later with
  | [] => []
  | block2 :: rest =>
      (if _blocks_contradict block1 block2 then
         [mkContradiction
            (ContentSource.name (ContentBlock.source block1))
            (ContentSource.name (ContentBlock.source block2))
            "Potentially conflicting information detected"]
       else []) ++ contradictions_with block1 rest
  end.

(** The outer loop [for i, block1 in enumerate(content_blocks)]. *)
Fixpoint contradictions_from (content_blocks : list ContentBlock.t)
  : list Contradiction :=
  match content_blocks with
  | [] => []
  | block1 :: rest =>
      contradictions_with block1 rest ++ contradictions_from rest
  end.

(** [ContentRouter._find_contradictions] *)
Definition _find_contradictions (content_blocks : list ContentBlock.t)
  : list Contradiction :=
  if (2 <=? List.length content_blocks)%nat
  then contradictions_from content_blocks
  else [].

(** [ContentRouter._identify_gaps] *)
Definition _identify_gaps (content_blocks : list ContentBlock.t)
  (query : string) : list string :=
  let gaps := @nil string in
  let query_terms := Py.split (Py.lower query) in
  let combined_text :=
    Py.join " " (map (fun block => Py.lower (ContentBlock.body block))
                   content_blocks) in
  let missing_terms :=
    filter (fun term => (3 <? String.length term)%nat
                        && negb (Py.contains term combined_text))
      query_terms in
  let gaps :=
    match missing_terms with
    | [] => gaps
    | _ => gaps ++ [("Missing coverage on: "
                       ++ Py.join ", " missing_terms)%string]
    end in
  match content_blocks with
  | [] => gaps ++ ["No content available for query"%string]
  | [_] =>
      gaps ++ ["Only single source available, multiple sources recommended"
               %string]
  | _ => gaps
  end.

(** The expression
    [sum(b.relevance_score for b in content_blocks) / len(content_blocks)
     if content_blocks else 0], which the source writes out twice. *)
Definition mean_relevance (content_blocks : list ContentBlock.t) : Q :=
  match content_blocks with
  | [] => 0
  | _ =>
      Py.sum (map ContentBlock.relevance_score content_blocks)
      / inject_Z (Z.of_nat (List.length content_blocks))
  end.

(** [ContentRouter._generate_recommendations] *)
Definition _generate_recommendations (content_blocks : list ContentBlock.t)
  (contradictions : list Contradiction) (gaps : list string) : list string :=
  let recommendations := @nil string in
  let recommendations :=
    match contradictions with
    | [] => recommendations
    | _ => recommendations ++
             [("Verify " ++ str_of_nat (List.length contradictions)
                 ++ " contradiction(s) between sources")%string]
    end in
  let recommendations :=
    match gaps with
    | [] => recommendations
    | gap0 :: _ =>
        recommendations ++ [("Additional research needed: " ++ gap0)%string]
    end in
  let recommendations :=
    if (List.length content_blocks <? 2)%nat then
      recommendations ++ ["Consult multiple sources for better coverage"%string]
    else recommendations in
  let avg_quality := mean_relevance content_blocks in
  if Py.lt avg_quality 0.6 then
    recommendations ++ ["Consider re-querying with refined search terms"%string]
  else recommendations.

(** [ContentRouter.synthesize_content].  [stamp] is the text of
    [datetime.utcnow().timestamp()], [now] the default of the [timestamp]
    field. *)
Definition synthesize_content (stamp : string) (now : Z) (query : string)
  (content_blocks : list ContentBlock.t) : result SynthesizedContent.t :=
  let synthesis_id := ("syn_" ++ stamp)%string in
  let aggregated_content := _aggregate_content content_blocks in
  sources <- set_of_sources (map ContentBlock.source content_blocks) [] ;;
  let contradictions := _find_contradictions content_blocks in
  let gaps := _identify_gaps content_blocks query in
  let quality_score := mean_relevance content_blocks in
  let recommendations :=
    _generate_recommendations content_blocks contradictions gaps in
  SynthesizedContent.new synthesis_id query aggregated_content sources
    quality_score contradictions gaps recommendations now.

End Router.

(** * Invariants and scenarios used in the statements *)

(** The representation invariant of a dictionary: keys are unique. *)
Definition dict_ok {K V : Type} (d : list (K * V)) : Prop := NoDup (Py.keys d).

(** The seven factors [score_content] reads from the weight table. *)
Definition core_factors : list Scorer.ScoringFactors :=
  [ Scorer.SOURCE_RELIABILITY; Scorer.CONTENT_FRESHNESS; Scorer.RELEVANCE;
    Scorer.COMPLETENESS; Scorer.ACCURACY; Scorer.CITATION_COUNT;
    Scorer.USER_FEEDBACK ].

Definition has_key (fw : list (Scorer.ScoringFactors * Q))
  (f : Scorer.ScoringFactors) : bool :=
  match dict_get Scorer.factor_eqb f fw with
  | Some _ => true
  | None => false
  end.

(** Every scorer the class can produce has a weight for each core factor:
    [__init__] enters them and no method removes a key. *)
Definition has_core_weights (self : Scorer.QualityScorer) : bool :=
  forallb (has_key (Scorer.factor_weights self)) core_factors.

(** The weight table after [d[f] = w], and its total. *)
Definition assigned (self : Scorer.QualityScorer) (f : Scorer.ScoringFactors)
  (w : Q) : list (Scorer.ScoringFactors * Q) :=
  dict_set Scorer.factor_eqb f w (Scorer.factor_weights self).

Definition assigned_total (self : Scorer.QualityScorer)
  (f : Scorer.ScoringFactors) (w : Q) : Q :=
  Py.sum (Py.values (assigned self f w)).

Definition weights_total (self : Scorer.QualityScorer) : Q :=
  Py.sum (Py.values (Scorer.factor_weights self)).

(** The entry [key: v] after [d[key] /= t]. *)
Definition scale (t : Q) (kv : Scorer.ScoringFactors * Q)
  : Scorer.ScoringFactors * Q :=
  (fst kv, snd kv / t).

(** A sequence of [set_factor_weight] calls on one scorer, with the outcome
    of each call. *)
Fixpoint set_weights (calls : list (Scorer.ScoringFactors * Q))
  (self : Scorer.QualityScorer)
  : list (result unit) * Scorer.QualityScorer :=
  match calls with
  | [] => ([], self)
  | (f, w) :: rest =>
      let '(r, self1) := Scorer.set_factor_weight f w self in
      let '(rs, self2) := set_weights rest self1 in
      (r :: rs, self2)
  end.

(** What the zeroing scenario keeps true of a weight table. *)
Definition nonneg_weights (fw : list (Scorer.ScoringFactors * Q)) : Prop :=
  Forall (fun kv => 0 <= snd kv) fw.

Definition zero_at (fw : list (Scorer.ScoringFactors * Q))
  (k : Scorer.ScoringFactors) : Prop :=
  exists v, dict_get Scorer.factor_eqb k fw = Some v /\ v == 0.

Definition positive_at (fw : list (Scorer.ScoringFactors * Q))
  (k : Scorer.ScoringFactors) : Prop :=
  exists v, dict_get Scorer.factor_eqb k fw = Some v /\ 0 < v.

(** What a table looks like while the scenario runs. *)
Definition zeroing_invariant (fw : list (Scorer.ScoringFactors * Q)) : Prop :=
  Py.keys fw = core_factors /\ nonneg_weights fw
  /\ positive_at fw Scorer.USER_FEEDBACK.

Definition zeroing_calls : list (Scorer.ScoringFactors * Q) :=
  [ (Scorer.SOURCE_RELIABILITY, 0); (Scorer.CONTENT_FRESHNESS, 0);
    (Scorer.RELEVANCE, 0); (Scorer.COMPLETENESS, 0);
    (Scorer.ACCURACY, 0); (Scorer.CITATION_COUNT, 0) ].

(** A fresh scorer on which six of the seven weights were set to zero,
    one call after the other. *)
Definition all_weight_on_feedback : Scorer.QualityScorer :=
  snd (set_weights zeroing_calls Scorer.init).

(** The strategy a string names, if any. *)
Definition known_strategy (s : string) : option Router.RoutingStrategy :=
  if String.eqb s "memory_first" then Some Router.MEMORY_FIRST
  else if String.eqb s "external_first" then Some Router.EXTERNAL_FIRST
  else if String.eqb s "balanced" then Some Router.BALANCED
  else if String.eqb s "memory_only" then Some Router.MEMORY_ONLY
  else if String.eqb s "external_only" then Some Router.EXTERNAL_ONLY
  else None.

(** The handler that belongs to each strategy. *)
Definition handler_of {Handler : Type} (s : Router.RoutingStrategy)
  : Router.ContentRouter Handler -> string -> Router.RequestContext
    -> Router.RoutingDecision :=
  match s with
  | Router.MEMORY_FIRST => Router._route_memory_first
  | Router.EXTERNAL_FIRST => Router._route_external_first
  | Router.BALANCED => Router._route_balanced
  | Router.MEMORY_ONLY => Router._route_memory_only
  | Router.EXTERNAL_ONLY => Router._route_external_only
  end.

(** [context or {}] *)
Definition context_or_empty (context : option Router.RequestContext)
  : Router.RequestContext :=
  match context with
  | Some c => c
  | None => []
  end.

(** The router of the fixture in [tests/test_content_router.py]:
    a memory source "memory" of priority 10 and a web-search source "web"
    of priority 5; the handlers are [None]. *)
Definition fixture_router : Router.ContentRouter unit :=
  Router.register_source 0 "web" "web_search" tt 5
    (Router.register_source 0 "memory" "memory" tt 10
       (Router.init "memory_first")).

(** The same fixture with the memory source registered under the empty
    string as its id. *)
Definition unnamed_memory_router : Router.ContentRouter unit :=
  Router.register_source 0 "web" "web_search" tt 5
    (Router.register_source 0 "" "memory" tt 10
       (Router.init "memory_first")).

(** Whether some registered source has the given type. *)
Definition has_source_of_type {Handler : Type}
  (self : Router.ContentRouter Handler) (source_type : string) : bool :=
  existsb (fun entry => String.eqb (Router.type (snd entry)) source_type)
    (Router.registered_sources self).

(** The two sources and blocks of [test_content_aggregation] in
    [tests/test_content_router.py]. *)
Definition memory_source : ContentSource.t :=
  ContentSource.mk "src1" "memory" "Memory Source" 0.95 0.9 0 [].

Definition web_source : ContentSource.t :=
  ContentSource.mk "src2" "web_search" "Web Source" 0.85 0.8 0 [].

Definition memory_block : ContentBlock.t :=
  ContentBlock.mk "block1" memory_source (Some "Memory Content"%string)
    "Content from memory" None [] 0.9 0 0.

Definition web_block : ContentBlock.t :=
  ContentBlock.mk "block2" web_source (Some "Web Content"%string)
    "Content from web" None [] 0.8 0 0.

(** Blocks in descending order of relevance. *)
Definition descending (blocks : list ContentBlock.t) : Prop :=
  StronglySorted
    (fun a b => ContentBlock.relevance_score b <= ContentBlock.relevance_score a)
    blocks.

(** ** Further notions used in the statements about the scorer *)

(** The weight a factor has in a table, [0] when the table has no entry. *)
Definition weight_or_zero (fw : list (Scorer.ScoringFactors * Q))
  (f : Scorer.ScoringFactors) : Q :=
  match dict_get Scorer.factor_eqb f fw with
  | Some v => v
  | None => 0
  end.

(** Quality levels from the lowest to the highest. *)
Definition quality_rank (q : ContentQuality) : nat :=
  match q with
  | LOW => 0
  | MEDIUM => 1
  | HIGH => 2
  | VERIFIED => 3
  end.

(** [len(content.split())] *)
Definition word_count (content : string) : nat :=
  List.length (Py.split content).

(** [min(max(x, 0), 1)] *)
Definition clamp (x : Q) : Q := Qmin (Qmax x 0) 1.

(** The weighted sum [score_content] forms before clamping, from the seven
    weights and the seven factor values. *)
Definition weighted_sum (ws vs : list Q) : Q :=
  Py.sum (map (fun wv => snd wv * fst wv) (combine ws vs)).

(** A scorer whose whole weight sits on one factor. *)
Definition feedback_only : Scorer.QualityScorer :=
  Scorer.with_weights Scorer.init
    [ (Scorer.SOURCE_RELIABILITY, 0); (Scorer.CONTENT_FRESHNESS, 0);
      (Scorer.RELEVANCE, 0); (Scorer.COMPLETENESS, 0); (Scorer.ACCURACY, 0);
      (Scorer.CITATION_COUNT, 0); (Scorer.USER_FEEDBACK, 1) ].

(** Every entry of the reliability table lies in [0,1], as the defaults do
    and as [set_source_reliability] requires of what it enters. *)
Definition reliabilities_in_range (self : Scorer.QualityScorer) : Prop :=
  Forall (fun kv => 0 <= snd kv <= 1) (Scorer.source_reliability_scores self).

(** ** Further notions used in the statements about the router *)

(** The metrics a source starts with. *)
Definition zero_metrics : Router.metrics := Router.mkMetrics 0 0 0 0 0.

(** Every registered source has its metrics entry, in the same order. *)
Definition synced {Handler : Type} (self : Router.ContentRouter Handler)
  : Prop :=
  Py.keys (Router.registered_sources self)
  = Py.keys (Router.source_metrics self).

(** Listings in descending order of priority. *)
Definition by_priority_desc (ls : list Router.source_listing) : Prop :=
  StronglySorted
    (fun a b => (Router.listing_priority b <= Router.listing_priority a)%Z) ls.

(** No source is registered under the empty string. *)
Definition all_ids_named {Handler : Type}
  (self : Router.ContentRouter Handler) : bool :=
  forallb Py.truthy (Py.keys (Router.registered_sources self)).

(** Whether an id is registered. *)
Definition is_registered {Handler : Type}
  (self : Router.ContentRouter Handler) (id : string) : bool :=
  existsb (fun k => String.eqb k id) (Py.keys (Router.registered_sources self)).

(** A listing shows a registered source with its type and priority. *)
Definition lists_registered {Handler : Type}
  (self : Router.ContentRouter Handler) (l : Router.source_listing) : Prop :=
  exists info,
    dict_get String.eqb (Router.listing_id l) (Router.registered_sources self)
    = Some info
    /\ Router.type info = Router.listing_type l
    /\ Router.priority info = Router.listing_priority l.

(** ** Further notions used in the statements about the synthesis *)

(** The local [combined_text] of [_identify_gaps]. *)
Definition combined_text (content_blocks : list ContentBlock.t) : string :=
  Py.join " " (map (fun block => Py.lower (ContentBlock.body block))
                 content_blocks).

(** The local [missing_terms] of [_identify_gaps]. *)
Definition missing_terms (content_blocks : list ContentBlock.t)
  (query : string) : list string :=
  filter (fun term => (3 <? String.length term)%nat
                      && negb (Py.contains term (combined_text content_blocks)))
    (Py.split (Py.lower query)).

(** Blocks whose relevance equals [k]. *)
Definition same_relevance (k : Q) (b : ContentBlock.t) : bool :=
  Qeq_bool (ContentBlock.relevance_score b) k.

(** All relevance scores passed the [ge=0, le=1] validation. *)
Definition relevance_validated (content_blocks : list ContentBlock.t) : Prop :=
  Forall (fun b => 0 <= ContentBlock.relevance_score b <= 1) content_blocks.

(** * Facts about insertion-ordered dictionaries *)

Module Dict.

Section Facts.

Context {K V : Type} (eqb : K -> K -> bool).
Hypothesis eqb_eq : forall a b : K, eqb a b = true <-> a = b.

Lemma eqb_refl (a : K) : eqb a a = true.
Proof. apply eqb_eq. reflexivity. Qed.

Lemma eqb_neq (a b : K) : a <> b -> eqb a b = false.
Proof.
  intro H. destruct (eqb a b) eqn:E; [|reflexivity].
  apply eqb_eq in E. contradiction.
Qed.

Lemma get_app_notin (k : K) (pre d : list (K * V)) :
  ~ In k (Py.keys pre) -> dict_get eqb k (pre ++ d) = dict_get eqb k d.
Proof.
  induction pre as [|[k' v'] pre IH]; simpl; intro H; [reflexivity|].
  rewrite eqb_neq by tauto. apply IH. tauto.
Qed.

Lemma set_app_notin (k : K) (q : V) (pre d : list (K * V)) :
  ~ In k (Py.keys pre) ->
  dict_set eqb k q (pre ++ d) = pre ++ dict_set eqb k q d.
Proof.
  induction pre as [|[k' v'] pre IH]; simpl; intro H; [reflexivity|].
  rewrite eqb_neq by tauto. f_equal. apply IH. tauto.
Qed.

Lemma keys_set (k : K) (v : V) (d : list (K * V)) :
  Py.keys (dict_set eqb k v d)
  = if existsb (fun k' => eqb k' k) (Py.keys d)
    then Py.keys d else Py.keys d ++ [k].
Proof.
  induction d as [|[k' v'] d IH]; simpl; [reflexivity|].
  destruct (eqb k' k) eqn:E; simpl; [reflexivity|].
  rewrite IH. destruct (existsb _ (Py.keys d)); reflexivity.
Qed.

Lemma keys_set_present (k : K) (v : V) (d : list (K * V)) :
  In k (Py.keys d) -> Py.keys (dict_set eqb k v d) = Py.keys d.
Proof.
  intro Hin. rewrite keys_set.
  replace (existsb (fun k' => eqb k' k) (Py.keys d)) with true;
    [reflexivity|].
  symmetry. apply existsb_exists. exists k.
  split; [exact Hin | apply eqb_refl].
Qed.

(** Assignment keeps the keys of a dictionary unique. *)
Lemma set_ok (k : K) (v : V) (d : list (K * V)) :
  dict_ok d -> dict_ok (dict_set eqb k v d).
Proof.
  unfold dict_ok. intro H. rewrite keys_set.
  destruct (existsb _ (Py.keys d)) eqn:E; [exact H|].
  apply NoDup_app; [exact H | repeat constructor; simpl; tauto |].
  intros x Hx [Hin|[]]. subst x.
  assert (existsb (fun k' => eqb k' k) (Py.keys d) = true); [|congruence].
  apply existsb_exists. exists k. split; [exact Hx | apply eqb_refl].
Qed.

Lemma get_set_same (k : K) (v : V) (d : list (K * V)) :
  dict_get eqb k (dict_set eqb k v d) = Some v.
Proof.
  induction d as [|[k' v'] d IH]; simpl.
  - rewrite eqb_refl. reflexivity.
  - destruct (eqb k' k) eqn:E; simpl; rewrite E; auto.
Qed.

Lemma get_set_other (k g : K) (v : V) (d : list (K * V)) :
  k <> g -> dict_get eqb g (dict_set eqb k v d) = dict_get eqb g d.
Proof.
  intro Hne. induction d as [|[k' v'] d IH]; simpl.
  - rewrite eqb_neq by exact Hne. reflexivity.
  - destruct (eqb k' k) eqn:E; simpl.
    + apply eqb_eq in E. subst k'.
      rewrite eqb_neq by exact Hne. reflexivity.
    + rewrite IH. reflexivity.
Qed.

(** A key of a well-formed dictionary has one value. *)
Lemma value_unique (k : K) (v1 v2 : V) (d : list (K * V)) :
  dict_ok d -> In (k, v1) d -> In (k, v2) d -> v1 = v2.
Proof.
  unfold dict_ok. induction d as [|[k' v'] d IH]; simpl; intros Hnd H1 H2.
  - contradiction.
  - inversion Hnd as [|? ? Hnotin Hnd']; subst.
    assert (Hkeys : forall v, In (k, v) d -> In k (Py.keys d)).
    { intros v Hv. apply (in_map fst) in Hv. exact Hv. }
    destruct H1 as [H1|H1], H2 as [H2|H2].
    + congruence.
    + injection H1 as -> _. exfalso. apply Hnotin. eapply Hkeys, H2.
    + injection H2 as -> _. exfalso. apply Hnotin. eapply Hkeys, H1.
    + eapply IH; eassumption.
Qed.

End Facts.

End Dict.

(** * Properties of the quality scorer *)

Section ScorerFacts.

Import Scorer.

Lemma fold_left_Qplus_shift (xs : list Q) (a : Q) :
  fold_left Qplus xs a == a + fold_left Qplus xs 0.
Proof.
  revert a. induction xs as [|x xs IH]; intro a; simpl.
  - ring.
  - rewrite (IH (a + x)), (IH (0 + x)). ring.
Qed.

Lemma sum_cons (x : Q) (xs : list Q) : Py.sum (x :: xs) == x + Py.sum xs.
Proof.
  unfold Py.sum. simpl. rewrite fold_left_Qplus_shift. ring.
Qed.

Lemma sum_app (xs ys : list Q) : Py.sum (xs ++ ys) == Py.sum xs + Py.sum ys.
Proof.
  induction xs as [|x xs IH]; simpl.
  - unfold Py.sum at 2. simpl. ring.
  - rewrite !sum_cons, IH. ring.
Qed.

Lemma sum_scaled (xs : list Q) (t : Q) :
  Py.sum (map (fun v => v / t) xs) == Py.sum xs / t.
Proof.
  induction xs as [|x xs IH]; simpl.
  - unfold Py.sum. simpl. unfold Qdiv. ring.
  - rewrite !sum_cons, IH. unfold Qdiv. ring.
Qed.

Lemma factor_eqb_eq (a b : ScoringFactors) : factor_eqb a b = true <-> a = b.
Proof. destruct a, b; simpl; split; intro H; try reflexivity; discriminate. Qed.

Lemma factor_eqb_refl (a : ScoringFactors) : factor_eqb a a = true.
Proof. apply (Dict.eqb_refl _ factor_eqb_eq). Qed.

Lemma factor_eqb_neq (a b : ScoringFactors) : a <> b -> factor_eqb a b = false.
Proof. apply (Dict.eqb_neq _ factor_eqb_eq). Qed.

(** The range test of both mutators. *)
Lemma out_of_range_rejected (w : Q) :
  w < 0 \/ 1 < w -> negb (Py.le 0 w && Py.le w 1) = true.
Proof.
  intros H. unfold Py.le.
  destruct (Qle_bool 0 w) eqn:E0; [|reflexivity].
  destruct (Qle_bool w 1) eqn:E1; [|reflexivity].
  apply Qle_bool_iff in E0. apply Qle_bool_iff in E1.
  destruct H as [H|H]; lra.
Qed.

Lemma in_range_accepted (w : Q) :
  0 <= w <= 1 -> negb (Py.le 0 w && Py.le w 1) = false.
Proof.
  intros [H0 H1]. unfold Py.le.
  apply Qle_bool_iff in H0. apply Qle_bool_iff in H1.
  rewrite H0, H1. reflexivity.
Qed.

(** C9.  A weight [w < 0] or [w > 1] makes [set_factor_weight] raise
    [ValueError] and leaves the scorer (hence the whole weight table) as it
    was: no entry is assigned and no renormalisation happens.  In the same
    way [set_source_reliability] raises on a reliability outside [0,1] and
    leaves the reliability table unchanged. *)
Theorem mutators_reject_atomically
  (self : QualityScorer) (f : ScoringFactors) (w : Q)
  (source_type : string) (reliability : Q) :
  w < 0 \/ 1 < w ->
  reliability < 0 \/ 1 < reliability ->
  set_factor_weight f w self =
    (Raise (ValueError "Weight must be between 0 and 1"), self)
  /\ set_source_reliability source_type reliability self =
       (Raise (ValueError "Reliability must be between 0 and 1"), self).
Proof.
  intros Hw Hr. unfold set_factor_weight, set_source_reliability.
  rewrite (out_of_range_rejected w Hw), (out_of_range_rejected _ Hr).
  split; reflexivity.
Qed.

Lemma mutators_reject_atomically_witness :
  set_factor_weight RELEVANCE (3 # 2) init =
    (Raise (ValueError "Weight must be between 0 and 1"), init)
  /\ set_source_reliability "custom" (-1 # 4) init =
       (Raise (ValueError "Reliability must be between 0 and 1"), init).
Proof.
  apply (mutators_reject_atomically init RELEVANCE (3 # 2) "custom" (-1 # 4)).
  - right. reflexivity.
  - left. reflexivity.
Defined.

(** The tiers and the decay, on sample ages in days. *)
Example freshness_tiers :
  map freshness_of_days [0; 30; 31; 90; 91; 180; 181; 365]%Z
  = [1.0; 1.0; 0.9; 0.9; 0.75; 0.75; 0.5; 0.5].
Proof. reflexivity. Qed.

Example freshness_decay :
  freshness_of_days 366 == 1 - (366 # 730)
  /\ freshness_of_days 584 == 0.2
  /\ freshness_of_days 10000 == 0.2.
Proof. repeat split. Qed.

(** Freshness as a function of the age in whole days never goes up. *)
Lemma freshness_of_days_antitone (d1 d2 : Z) :
  (d1 <= d2)%Z -> freshness_of_days d2 <= freshness_of_days d1.
Proof.
  intro Hle. unfold freshness_of_days.
  assert (Hq : inject_Z d1 <= inject_Z d2) by (rewrite <- Zle_Qle; exact Hle).
  assert (Hdecay : forall d, (365 < d)%Z ->
            Qmax 0.2 (1.0 - inject_Z d / inject_Z (365 * 2)) <= 0.5).
  { intros d Hd. apply Q.max_lub; [lra|].
    assert (inject_Z 366 <= inject_Z d) by (rewrite <- Zle_Qle; lia).
    change (inject_Z d / inject_Z (365 * 2)) with (inject_Z d * (1 # 730)).
    change (inject_Z 366) with 366 in H. lra. }
  destruct (Z.leb_spec d1 30); destruct (Z.leb_spec d2 30); try lia; try lra.
  - destruct (Z.leb_spec d2 90); [lra|].
    destruct (Z.leb_spec d2 180); [lra|].
    destruct (Z.leb_spec d2 365); [lra|].
    specialize (Hdecay d2 ltac:(lia)). lra.
  - destruct (Z.leb_spec d1 90); destruct (Z.leb_spec d2 90); try lia; try lra.
    + destruct (Z.leb_spec d2 180); [lra|].
      destruct (Z.leb_spec d2 365); [lra|].
      specialize (Hdecay d2 ltac:(lia)). lra.
    + destruct (Z.leb_spec d1 180); destruct (Z.leb_spec d2 180);
        try lia; try lra.
      * destruct (Z.leb_spec d2 365); [lra|].
        specialize (Hdecay d2 ltac:(lia)). lra.
      * destruct (Z.leb_spec d1 365); destruct (Z.leb_spec d2 365);
          try lia; try lra.
        -- exact (Hdecay d2 ltac:(lia)).
        -- apply Q.max_le_compat_l.
           change (inject_Z d1 / inject_Z (365 * 2))
             with (inject_Z d1 * (1 # 730)).
           change (inject_Z d2 / inject_Z (365 * 2))
             with (inject_Z d2 * (1 # 730)).
           lra.
Qed.

Lemma days_old_antitone (now older newer : Z) :
  (older <= newer)%Z -> (_days_old now newer <= _days_old now older)%Z.
Proof.
  intro H. unfold _days_old, microseconds_per_day.
  apply Z.div_le_mono; lia.
Qed.

(** C3.  Read at one and the same current time, content created earlier
    (older) never scores fresher than content created later: the score is a
    non-increasing function of the age in whole days, through the tiers at
    30, 90, 180 and 365 days and in the decay [max(0.2, 1 - days/730)]. *)
Theorem freshness_non_increasing_with_age (now older newer : Z) :
  (older <= newer)%Z ->
  _score_freshness now older <= _score_freshness now newer.
Proof.
  intro H. unfold _score_freshness.
  apply freshness_of_days_antitone, days_old_antitone, H.
Qed.

Lemma freshness_non_increasing_with_age_witness :
  _score_freshness (400 * microseconds_per_day) 0
  <= _score_freshness (400 * microseconds_per_day) (35 * microseconds_per_day).
Proof.
  apply (freshness_non_increasing_with_age
           (400 * microseconds_per_day) 0 (35 * microseconds_per_day)).
  unfold microseconds_per_day. lia.
Defined.

Lemma has_key_dict_set (k g : ScoringFactors) (v : Q)
  (d : list (ScoringFactors * Q)) :
  has_key d g = true -> has_key (dict_set factor_eqb k v d) g = true.
Proof.
  unfold has_key. induction d as [|[k' v'] d IH]; simpl.
  - discriminate.
  - destruct (factor_eqb k' g) eqn:Eg.
    + intros _. destruct (factor_eqb k' k); simpl; rewrite Eg; reflexivity.
    + intro H. destruct (factor_eqb k' k); simpl; rewrite Eg; auto.
Qed.

Lemma has_key_normalize_loop (ks : list ScoringFactors) (t : Q) (g : ScoringFactors) :
  forall d, has_key d g = true -> has_key (snd (normalize_loop ks t d)) g = true.
Proof.
  induction ks as [|k ks IH]; intros d H; simpl.
  - exact H.
  - destruct (dict_item factor_eqb k d); [|exact H].
    destruct (Py.truediv a t); [|exact H].
    apply IH, has_key_dict_set, H.
Qed.

(** The precondition of the scoring theorem is an invariant of the class. *)
Lemma init_has_core_weights : has_core_weights init = true.
Proof. reflexivity. Qed.

Lemma set_factor_weight_keeps_core_weights (f : ScoringFactors) (w : Q)
  (self : QualityScorer) :
  has_core_weights self = true ->
  has_core_weights (snd (set_factor_weight f w self)) = true.
Proof.
  unfold has_core_weights, set_factor_weight. intro H.
  destruct (negb (Py.le 0 w && Py.le w 1)); [exact H|].
  destruct (normalize_loop _ _ _) as [r fw'] eqn:E. cbn [snd factor_weights with_weights].
  rewrite forallb_forall in H. apply forallb_forall. intros g Hg.
  replace fw' with (snd (normalize_loop
    (Py.keys (dict_set factor_eqb f w (factor_weights self)))
    (Py.sum (Py.values (dict_set factor_eqb f w (factor_weights self))))
    (dict_set factor_eqb f w (factor_weights self)))) by (rewrite E; reflexivity).
  apply has_key_normalize_loop, has_key_dict_set, H, Hg.
Qed.

Lemma set_source_reliability_keeps_core_weights (t : string) (v : Q)
  (self : QualityScorer) :
  has_core_weights self = true ->
  has_core_weights (snd (set_source_reliability t v self)) = true.
Proof.
  unfold set_source_reliability. intro H.
  destruct (negb (Py.le 0 v && Py.le v 1)); exact H.
Qed.

Lemma core_weight_present (self : QualityScorer) (f : ScoringFactors) :
  has_core_weights self = true -> In f core_factors ->
  exists w, weight_of self f = Ok w.
Proof.
  unfold has_core_weights. rewrite forallb_forall. intros H Hf.
  specialize (H f Hf). unfold has_key in H. unfold weight_of, dict_item.
  destruct (dict_get factor_eqb f (factor_weights self)) as [w|];
    [exists w; reflexivity | discriminate].
Qed.




(** *** Renormalisation *)

Lemma dict_get_app_notin (k : ScoringFactors)
  (pre d : list (ScoringFactors * Q)) :
  ~ In k (Py.keys pre) ->
  dict_get factor_eqb k (pre ++ d) = dict_get factor_eqb k d.
Proof. apply (Dict.get_app_notin _ factor_eqb_eq). Qed.

Lemma dict_set_app_notin (k : ScoringFactors) (q : Q)
  (pre d : list (ScoringFactors * Q)) :
  ~ In k (Py.keys pre) ->
  dict_set factor_eqb k q (pre ++ d) = pre ++ dict_set factor_eqb k q d.
Proof. apply (Dict.set_app_notin _ factor_eqb_eq). Qed.

Lemma keys_app (pre d : list (ScoringFactors * Q)) :
  Py.keys (pre ++ d) = Py.keys pre ++ Py.keys d.
Proof. apply map_app. Qed.

(** With a non-zero total the loop runs to its end and has divided every
    entry, each exactly once. *)
Lemma normalize_loop_divides_all (t : Q) (todo : list (ScoringFactors * Q)) :
  Qeq_bool t 0 = false ->
  forall pre, dict_ok (pre ++ todo) ->
  normalize_loop (Py.keys todo) t (pre ++ todo)
  = (Ok tt, pre ++ map (scale t) todo).
Proof.
  intro Ht. induction todo as [|[k v] rest IH]; intros pre Hok.
  - reflexivity.
  - assert (Hk : ~ In k (Py.keys pre)).
    { unfold dict_ok in Hok. rewrite keys_app in Hok. simpl in Hok.
      apply NoDup_remove_2 in Hok. intro Hin. apply Hok.
      apply in_or_app. left. exact Hin. }
    cbn [Py.keys map fst normalize_loop]. unfold dict_item.
    rewrite (dict_get_app_notin k pre _ Hk). cbn [dict_get].
    rewrite factor_eqb_refl. unfold Py.truediv. rewrite Ht.
    rewrite (dict_set_app_notin k _ pre _ Hk). cbn [dict_set].
    rewrite factor_eqb_refl.
    change (pre ++ (k, v / t) :: rest) with (pre ++ [(k, v / t)] ++ rest).
    rewrite app_assoc. fold (Py.keys rest). rewrite IH.
    + rewrite <- app_assoc. reflexivity.
    + unfold dict_ok in *. rewrite <- app_assoc.
      rewrite keys_app in *. exact Hok.
Qed.

Lemma keys_dict_set (k : ScoringFactors) (v : Q)
  (d : list (ScoringFactors * Q)) :
  Py.keys (dict_set factor_eqb k v d)
  = if existsb (fun k' => factor_eqb k' k) (Py.keys d)
    then Py.keys d else Py.keys d ++ [k].
Proof. apply Dict.keys_set. Qed.

Lemma dict_set_ok (k : ScoringFactors) (v : Q) (d : list (ScoringFactors * Q)) :
  dict_ok d -> dict_ok (dict_set factor_eqb k v d).
Proof. apply (Dict.set_ok _ factor_eqb_eq). Qed.

Lemma dict_get_set_same (k : ScoringFactors) (v : Q)
  (d : list (ScoringFactors * Q)) :
  dict_get factor_eqb k (dict_set factor_eqb k v d) = Some v.
Proof. apply (Dict.get_set_same _ factor_eqb_eq). Qed.

Lemma dict_get_scale (t : Q) (k : ScoringFactors)
  (d : list (ScoringFactors * Q)) :
  dict_get factor_eqb k (map (scale t) d)
  = option_map (fun v => v / t) (dict_get factor_eqb k d).
Proof.
  induction d as [|[k' v'] d IH]; simpl; [reflexivity|].
  destruct (factor_eqb k' k); [reflexivity | exact IH].
Qed.

Lemma values_scale (t : Q) (d : list (ScoringFactors * Q)) :
  Py.values (map (scale t) d) = map (fun v => v / t) (Py.values d).
Proof.
  unfold Py.values. rewrite !map_map. reflexivity.
Qed.

(** A weight in range and a non-zero total: the call returns and the table
    is the assigned one with every entry divided by the total. *)
Lemma set_factor_weight_divides_by_total
  (self : QualityScorer) (f : ScoringFactors) (w : Q) :
  dict_ok (factor_weights self) ->
  0 <= w <= 1 ->
  ~ assigned_total self f w == 0 ->
  fst (set_factor_weight f w self) = Ok tt
  /\ factor_weights (snd (set_factor_weight f w self))
     = map (scale (assigned_total self f w)) (assigned self f w)
  /\ dict_get factor_eqb f (factor_weights (snd (set_factor_weight f w self)))
     = Some (w / assigned_total self f w)
  /\ weights_total (snd (set_factor_weight f w self)) == 1.
Proof.
  intros Hok Hw Ht.
  assert (Hz : Qeq_bool (assigned_total self f w) 0 = false).
  { destruct (Qeq_bool (assigned_total self f w) 0) eqn:E; [|reflexivity].
    apply Qeq_bool_iff in E. contradiction. }
  assert (Hloop := normalize_loop_divides_all _ (assigned self f w) Hz []
                     (dict_set_ok f w _ Hok)).
  cbn [app] in Hloop.
  unfold set_factor_weight. rewrite (in_range_accepted w Hw).
  fold (assigned self f w). fold (assigned_total self f w).
  rewrite Hloop. cbn [fst snd factor_weights with_weights].
  split; [reflexivity|]. split; [reflexivity|]. split.
  - rewrite dict_get_scale. unfold assigned. rewrite dict_get_set_same.
    reflexivity.
  - unfold weights_total, with_weights. cbn [factor_weights].
    rewrite values_scale, sum_scaled. fold (assigned_total self f w).
    field. exact Ht.
Qed.

(** C1, as amended.  For a weight in [0,1] whose assignment leaves a
    non-zero total, [set_factor_weight] succeeds; every entry of the table,
    the one just set included, has been divided by that total, and the
    table sums to 1. *)
Theorem set_factor_weight_renormalizes
  (self : QualityScorer) (f : ScoringFactors) (w : Q) :
  dict_ok (factor_weights self) ->
  0 <= w <= 1 ->
  ~ assigned_total self f w == 0 ->
  fst (set_factor_weight f w self) = Ok tt
  /\ factor_weights (snd (set_factor_weight f w self))
     = map (scale (assigned_total self f w)) (assigned self f w)
  /\ dict_get factor_eqb f (factor_weights (snd (set_factor_weight f w self)))
     = Some (w / assigned_total self f w)
  /\ weights_total (snd (set_factor_weight f w self)) == 1.
Proof. apply set_factor_weight_divides_by_total. Qed.

Lemma set_factor_weight_renormalizes_witness :
  fst (set_factor_weight RELEVANCE (1 # 2) init) = Ok tt
  /\ factor_weights (snd (set_factor_weight RELEVANCE (1 # 2) init))
     = map (scale (assigned_total init RELEVANCE (1 # 2)))
         (assigned init RELEVANCE (1 # 2))
  /\ dict_get factor_eqb RELEVANCE
       (factor_weights (snd (set_factor_weight RELEVANCE (1 # 2) init)))
     = Some ((1 # 2) / assigned_total init RELEVANCE (1 # 2))
  /\ weights_total (snd (set_factor_weight RELEVANCE (1 # 2) init)) == 1.
Proof.
  apply (set_factor_weight_renormalizes init RELEVANCE (1 # 2)).
  - unfold dict_ok. simpl.
    repeat (constructor; [simpl; intuition discriminate|]). constructor.
  - split; discriminate.
  - vm_compute. discriminate.
Defined.

(** Raising the relevance weight of a fresh scorer to 0.5: the total is
    1.25, relevance ends at 0.4 and source reliability drops to 0.2. *)
Example relevance_weight_raised :
  assigned_total init RELEVANCE 0.5 == 1.25
  /\ (exists v, dict_get factor_eqb RELEVANCE
                  (factor_weights (snd (set_factor_weight RELEVANCE 0.5 init)))
                = Some v /\ v == 0.4)
  /\ (exists v, dict_get factor_eqb SOURCE_RELIABILITY
                  (factor_weights (snd (set_factor_weight RELEVANCE 0.5 init)))
                = Some v /\ v == 0.2).
Proof.
  split; [reflexivity|].
  split; eexists; (split; [vm_compute; reflexivity | reflexivity]).
Qed.

(** *** Zeroing all weights but one *)

Lemma dict_get_set_other (k g : ScoringFactors) (v : Q)
  (d : list (ScoringFactors * Q)) :
  k <> g ->
  dict_get factor_eqb g (dict_set factor_eqb k v d) = dict_get factor_eqb g d.
Proof. apply (Dict.get_set_other _ factor_eqb_eq). Qed.

Lemma keys_dict_set_present (k : ScoringFactors) (v : Q)
  (d : list (ScoringFactors * Q)) :
  In k (Py.keys d) -> Py.keys (dict_set factor_eqb k v d) = Py.keys d.
Proof. apply (Dict.keys_set_present _ factor_eqb_eq). Qed.

Lemma keys_scale (t : Q) (d : list (ScoringFactors * Q)) :
  Py.keys (map (scale t) d) = Py.keys d.
Proof. unfold Py.keys. rewrite map_map. reflexivity. Qed.

Lemma nonneg_dict_set (k : ScoringFactors) (v : Q)
  (d : list (ScoringFactors * Q)) :
  0 <= v -> nonneg_weights d -> nonneg_weights (dict_set factor_eqb k v d).
Proof.
  intros Hv. unfold nonneg_weights.
  induction d as [|[k' v'] d IH]; simpl; intro H.
  - repeat constructor. exact Hv.
  - inversion H; subst. destruct (factor_eqb k' k); constructor; auto.
Qed.

Lemma sum_nonneg (xs : list Q) : Forall (fun x => 0 <= x) xs -> 0 <= Py.sum xs.
Proof.
  induction 1 as [|x xs Hx _ IH].
  - discriminate.
  - rewrite sum_cons. lra.
Qed.

Lemma nonneg_values (d : list (ScoringFactors * Q)) :
  nonneg_weights d -> Forall (fun x => 0 <= x) (Py.values d).
Proof.
  unfold nonneg_weights, Py.values. induction 1; simpl; constructor; auto.
Qed.

(** A table of non-negative weights sums to at least each of its entries. *)
Lemma entry_le_total (d : list (ScoringFactors * Q)) (k : ScoringFactors) (v : Q) :
  nonneg_weights d -> dict_get factor_eqb k d = Some v ->
  v <= Py.sum (Py.values d).
Proof.
  induction d as [|[k' v'] d IH]; simpl; intros Hn Hg; [discriminate|].
  inversion Hn as [|? ? Hv' Hd]; subst. simpl in Hv'.
  rewrite sum_cons. pose proof (sum_nonneg _ (nonneg_values d Hd)) as Hs.
  destruct (factor_eqb k' k).
  - injection Hg as <-. fold (Py.values d). lra.
  - specialize (IH Hd Hg). fold (Py.values d). lra.
Qed.

Lemma div_nonneg (v t : Q) : 0 <= v -> 0 < t -> 0 <= v / t.
Proof. intros Hv Ht. apply Qle_shift_div_l; [exact Ht | lra]. Qed.

Lemma div_pos (v t : Q) : 0 < v -> 0 < t -> 0 < v / t.
Proof. intros Hv Ht. apply Qlt_shift_div_l; [exact Ht | lra]. Qed.

Lemma div_zero (v t : Q) : v == 0 -> v / t == 0.
Proof. intro H. rewrite H. unfold Qdiv. ring. Qed.

Lemma core_factors_nodup : NoDup core_factors.
Proof.
  unfold core_factors.
  repeat (constructor; [simpl; intuition discriminate|]). constructor.
Qed.

Lemma zeroing_invariant_dict_ok (fw : list (ScoringFactors * Q)) :
  zeroing_invariant fw -> dict_ok fw.
Proof.
  intros [Hk _]. unfold dict_ok. rewrite Hk. apply core_factors_nodup.
Qed.

(** One call [set_factor_weight(f, 0)] with [f] another factor than
    [USER_FEEDBACK]: it returns, [f] now weighs zero, zero weights stay
    zero, and [USER_FEEDBACK] keeps a positive weight. *)
Lemma zeroing_step (self : QualityScorer) (f : ScoringFactors) :
  zeroing_invariant (factor_weights self) ->
  In f core_factors -> f <> USER_FEEDBACK ->
  fst (set_factor_weight f 0 self) = Ok tt
  /\ zeroing_invariant (factor_weights (snd (set_factor_weight f 0 self)))
  /\ zero_at (factor_weights (snd (set_factor_weight f 0 self))) f
  /\ (forall k, zero_at (factor_weights self) k ->
                zero_at (factor_weights (snd (set_factor_weight f 0 self))) k)
  /\ weights_total (snd (set_factor_weight f 0 self)) == 1.
Proof.
  intros Hinv Hf Hne.
  pose proof (zeroing_invariant_dict_ok _ Hinv) as Hok.
  destruct Hinv as (Hkeys & Hnn & (u & Hu & Hupos)).
  assert (Hkeys' : Py.keys (assigned self f 0) = core_factors).
  { unfold assigned. rewrite keys_dict_set_present; rewrite Hkeys; auto. }
  assert (Hnn' : nonneg_weights (assigned self f 0)).
  { apply nonneg_dict_set; [discriminate | exact Hnn]. }
  assert (Hu' : dict_get factor_eqb USER_FEEDBACK (assigned self f 0) = Some u).
  { unfold assigned. rewrite dict_get_set_other; assumption. }
  assert (Htot : 0 < assigned_total self f 0).
  { pose proof (entry_le_total _ _ _ Hnn' Hu'). unfold assigned_total. lra. }
  destruct (set_factor_weight_divides_by_total self f 0 Hok)
    as (Hr & Hfw & Hgf & Hsum).
  { split; discriminate. }
  { lra. }
  split; [exact Hr|]. rewrite Hfw.
  split; [|split; [|split; [|exact Hsum]]].
  - split; [rewrite keys_scale; exact Hkeys'|]. split.
    + unfold nonneg_weights in *. apply Forall_map.
      eapply Forall_impl; [|exact Hnn']. intros [k v] Hv. simpl in *.
      apply div_nonneg; assumption.
    + exists (u / assigned_total self f 0). rewrite dict_get_scale, Hu'.
      split; [reflexivity | apply div_pos; assumption].
  - exists (0 / assigned_total self f 0). rewrite dict_get_scale.
    unfold assigned. rewrite dict_get_set_same.
    split; [reflexivity | apply div_zero; reflexivity].
  - intros k (v & Hv & Hv0).
    assert (Hk : exists v', dict_get factor_eqb k (assigned self f 0) = Some v'
                            /\ v' == 0).
    { unfold assigned. destruct (factor_eqb f k) eqn:E.
      - apply factor_eqb_eq in E. subst k. exists 0.
        rewrite dict_get_set_same. split; reflexivity.
      - exists v. rewrite dict_get_set_other; [auto|].
        intro Heq. subst k. rewrite factor_eqb_refl in E. discriminate. }
    destruct Hk as (v' & Hv' & Hv'0).
    exists (v' / assigned_total self f 0). rewrite dict_get_scale, Hv'.
    split; [reflexivity | apply div_zero; exact Hv'0].
Qed.

Lemma set_weights_cons (f : ScoringFactors) (w : Q)
  (rest : list (ScoringFactors * Q)) (self : QualityScorer) :
  set_weights ((f, w) :: rest) self
  = (fst (set_factor_weight f w self)
       :: fst (set_weights rest (snd (set_factor_weight f w self))),
     snd (set_weights rest (snd (set_factor_weight f w self)))).
Proof.
  cbn [set_weights]. destruct (set_factor_weight f w self) as [r s1].
  cbn [fst snd]. destruct (set_weights rest s1). reflexivity.
Qed.

(** Any run of such calls returns normally at every call and ends with a
    zero weight on every factor it named. *)
Lemma zeroing_run (calls : list (ScoringFactors * Q)) :
  Forall (fun c => In (fst c) core_factors /\ fst c <> USER_FEEDBACK
                   /\ snd c = 0) calls ->
  forall self, zeroing_invariant (factor_weights self) ->
  fst (set_weights calls self) = map (fun _ => Ok tt) calls
  /\ zeroing_invariant (factor_weights (snd (set_weights calls self)))
  /\ (forall k, zero_at (factor_weights self) k \/ In k (map fst calls) ->
                zero_at (factor_weights (snd (set_weights calls self))) k)
  /\ (calls <> [] -> weights_total (snd (set_weights calls self)) == 1).
Proof.
  induction 1 as [|[f w] calls (Hf & Hne & Hw) _ IH]; intros self Hinv.
  - cbn. split; [reflexivity|]. split; [exact Hinv|]. split.
    + intros k [Hk|[]]. exact Hk.
    + intro Hc. contradiction.
  - cbn [fst snd] in Hf, Hne, Hw. subst w. rewrite set_weights_cons.
    cbn [fst snd map].
    destruct (zeroing_step self f Hinv Hf Hne) as (Hr & Hinv1 & Hz & Hkeep & Hs).
    destruct (IH _ Hinv1) as (Hrs & Hinv2 & Hz2 & Hs2).
    split; [rewrite Hr, Hrs; reflexivity|]. split; [exact Hinv2|]. split.
    + intros k [Hk|[Hk|Hk]].
      * apply Hz2. left. apply Hkeep, Hk.
      * subst k. apply Hz2. left. exact Hz.
      * apply Hz2. right. exact Hk.
    + intros _. destruct calls as [|c calls'].
      * cbn [set_weights snd]. exact Hs.
      * apply Hs2. discriminate.
Qed.

Lemma init_zeroing_invariant : zeroing_invariant (factor_weights init).
Proof.
  split; [reflexivity|]. split.
  - unfold nonneg_weights. simpl. repeat constructor; discriminate.
  - exists 0.02. split; reflexivity.
Qed.

Lemma zeroing_calls_admissible :
  Forall (fun c => In (fst c) core_factors /\ fst c <> USER_FEEDBACK
                   /\ snd c = 0) zeroing_calls.
Proof.
  unfold zeroing_calls.
  repeat (constructor;
          [split; [simpl; tauto | split; [discriminate | reflexivity]]|]).
  constructor.
Qed.

(** The scorer of the scenario is reached through the class itself: each of
    the six calls that build it returns normally, and its table sums to 1. *)
Lemma all_weight_on_feedback_reached :
  fst (set_weights zeroing_calls init) = [Ok tt; Ok tt; Ok tt; Ok tt; Ok tt; Ok tt]
  /\ weights_total all_weight_on_feedback == 1.
Proof.
  destruct (zeroing_run _ zeroing_calls_admissible init init_zeroing_invariant)
    as (Hr & _ & _ & Hs).
  split; [exact Hr|]. unfold all_weight_on_feedback. apply Hs. discriminate.
Qed.

(** A table whose entries are all zero sums to zero. *)
Lemma all_zero_total (d : list (ScoringFactors * Q)) :
  dict_ok d -> (forall k, In k (Py.keys d) -> zero_at d k) ->
  Py.sum (Py.values d) == 0.
Proof.
  unfold dict_ok. induction d as [|[k v] d IH]; simpl; intros Hnd Hz.
  - reflexivity.
  - inversion Hnd as [|? ? Hnotin Hnd']; subst. rewrite sum_cons.
    assert (Hv : v == 0).
    { destruct (Hz k (or_introl eq_refl)) as (v0 & Hg & H0). simpl in Hg.
      rewrite factor_eqb_refl in Hg. injection Hg as <-. exact H0. }
    fold (Py.values d). rewrite IH; [lra | exact Hnd' |].
    intros k' Hk'. destruct (Hz k' (or_intror Hk')) as (v0 & Hg & H0).
    simpl in Hg. rewrite factor_eqb_neq in Hg.
    + exists v0. split; assumption.
    + intro Heq. subst k'. contradiction.
Qed.

(** With every other weight at zero, [set_factor_weight(f, 0)] raises at
    the first division and leaves the table with the assignment made. *)
Lemma zero_total_raises (self : QualityScorer) (f : ScoringFactors) :
  Py.keys (factor_weights self) = core_factors -> In f core_factors ->
  (forall k, In k core_factors -> k <> f -> zero_at (factor_weights self) k) ->
  set_factor_weight f 0 self
  = (Raise (ZeroDivisionError "float division by zero"),
     with_weights self (assigned self f 0))
  /\ assigned_total self f 0 == 0.
Proof.
  intros Hkeys Hf Hz.
  assert (Hkeys' : Py.keys (assigned self f 0) = core_factors).
  { unfold assigned. rewrite keys_dict_set_present; rewrite Hkeys; auto. }
  assert (Hall : forall k, In k (Py.keys (assigned self f 0)) ->
                           zero_at (assigned self f 0) k).
  { intros k Hk. rewrite Hkeys' in Hk. unfold assigned.
    destruct (factor_eqb f k) eqn:E.
    - apply factor_eqb_eq in E. subst k. exists 0.
      rewrite dict_get_set_same. split; reflexivity.
    - assert (Hne : f <> k).
      { intro Heq. subst k. rewrite factor_eqb_refl in E. discriminate. }
      destruct (Hz k Hk (fun H => Hne (eq_sym H))) as (v & Hv & Hv0).
      exists v. rewrite dict_get_set_other; auto. }
  assert (Htot : assigned_total self f 0 == 0).
  { unfold assigned_total. apply all_zero_total; [|exact Hall].
    unfold dict_ok. rewrite Hkeys'. apply core_factors_nodup. }
  split; [|exact Htot].
  unfold set_factor_weight. rewrite (in_range_accepted 0) by (split; discriminate).
  fold (assigned self f 0). fold (assigned_total self f 0).
  rewrite Hkeys'. cbn [core_factors normalize_loop].
  destruct (Hall SOURCE_RELIABILITY) as (v & Hv & _).
  { rewrite Hkeys'. simpl. tauto. }
  unfold dict_item. rewrite Hv. unfold Py.truediv.
  apply Qeq_bool_iff in Htot. rewrite Htot. reflexivity.
Qed.

(** The same, in the terms of the claim: the call does not return, and the
    table it leaves does not sum to 1. *)
Lemma zero_total_breaks_normalization (self : QualityScorer)
  (f : ScoringFactors) :
  Py.keys (factor_weights self) = core_factors -> In f core_factors ->
  (forall k, In k core_factors -> k <> f -> zero_at (factor_weights self) k) ->
  fst (set_factor_weight f 0 self)
  = Raise (ZeroDivisionError "float division by zero")
  /\ weights_total (snd (set_factor_weight f 0 self)) == 0
  /\ ~ (fst (set_factor_weight f 0 self) = Ok tt
        /\ weights_total (snd (set_factor_weight f 0 self)) == 1).
Proof.
  intros Hkeys Hf Hz.
  destruct (zero_total_raises self f Hkeys Hf Hz) as (Hraise & Htot).
  rewrite Hraise. cbn [fst snd].
  split; [reflexivity|]. split.
  - unfold weights_total, with_weights. cbn [factor_weights]. exact Htot.
  - intros [H _]. discriminate H.
Qed.

Lemma all_weight_on_feedback_table :
  Py.keys (factor_weights all_weight_on_feedback) = core_factors
  /\ (forall k, In k core_factors -> k <> USER_FEEDBACK ->
        zero_at (factor_weights all_weight_on_feedback) k).
Proof.
  destruct (zeroing_run _ zeroing_calls_admissible init init_zeroing_invariant)
    as (_ & (Hkeys & _ & _) & Hz & _).
  split; [exact Hkeys|].
  intros k Hk Hne. apply Hz. right.
  simpl in Hk. simpl. intuition congruence.
Qed.

(** C1, counterexample.  On the scorer whose whole weight sits on
    [USER_FEEDBACK] (reached from a fresh scorer by six successful calls),
    setting that weight to [0], a weight within [0,1], does not succeed:
    the total after the assignment is zero, the first division raises
    [ZeroDivisionError], and the table that is left sums to 0, not 1. *)
Lemma set_factor_weight_zero_total_raises :
  0 <= 0 <= 1
  /\ fst (set_factor_weight USER_FEEDBACK 0 all_weight_on_feedback)
     = Raise (ZeroDivisionError "float division by zero")
  /\ weights_total (snd (set_factor_weight USER_FEEDBACK 0
                           all_weight_on_feedback)) == 0
  /\ ~ (fst (set_factor_weight USER_FEEDBACK 0 all_weight_on_feedback) = Ok tt
        /\ weights_total (snd (set_factor_weight USER_FEEDBACK 0
                                 all_weight_on_feedback)) == 1).
Proof.
  split; [split; discriminate|].
  destruct all_weight_on_feedback_table as (Hkeys & Hz).
  apply (zero_total_breaks_normalization all_weight_on_feedback USER_FEEDBACK
           Hkeys); [simpl; tauto | exact Hz].
Qed.

End ScorerFacts.

(** * Properties of the router *)

Section RouterFacts.

Import Router.

Context {Handler : Type}.

Implicit Types self : ContentRouter Handler.

Lemma max_by_priority_in (rest : list (string * Z)) :
  forall best, In (max_by_priority best rest) (best :: rest).
Proof.
  induction rest as [|c rest IH]; intro best; simpl.
  - left. reflexivity.
  - destruct (IH (if (snd best <? snd c)%Z then c else best)) as [H|H].
    + destruct (snd best <? snd c)%Z; rewrite <- H; tauto.
    + tauto.
Qed.

(** A source the lookup returns is registered, with the type asked for. *)
Lemma get_source_by_type_registered self (source_type id : string) :
  _get_source_by_type self source_type = Some id ->
  exists info, In (id, info) (registered_sources self)
               /\ type info = source_type.
Proof.
  unfold _get_source_by_type.
  destruct (candidates self source_type) as [|c rest] eqn:E; [discriminate|].
  intro H. injection H as <-.
  pose proof (max_by_priority_in rest c) as Hin. rewrite <- E in Hin.
  unfold candidates in Hin. apply in_map_iff in Hin.
  destruct Hin as ([id' info] & Heq & Hf). apply filter_In in Hf.
  destruct Hf as [Hreg Hty]. simpl in Hty. apply String.eqb_eq in Hty.
  rewrite <- Heq. simpl. exists info. split; assumption.
Qed.

(** The lookup finds a source exactly when one of the type is registered. *)
Lemma get_source_by_type_found self (source_type : string) :
  has_source_of_type self source_type = true <->
  exists id, _get_source_by_type self source_type = Some id.
Proof.
  unfold has_source_of_type, _get_source_by_type, candidates. split.
  - intro H. apply existsb_exists in H. destruct H as (e & Hin & He).
    assert (Hf : In e (filter (fun entry => String.eqb (type (snd entry))
                                 source_type) (registered_sources self))).
    { apply filter_In. split; assumption. }
    destruct (filter _ (registered_sources self)) as [|c rest];
      [contradiction|].
    simpl. eexists. reflexivity.
  - intros (id & H).
    destruct (filter _ (registered_sources self)) as [|c rest] eqn:E;
      [discriminate|].
    apply existsb_exists. exists c.
    assert (Hc : In c (filter (fun entry => String.eqb (type (snd entry))
                                 source_type) (registered_sources self))).
    { rewrite E. left. reflexivity. }
    apply filter_In in Hc. exact Hc.
Qed.

(** Uniqueness of ids is an invariant of the registry. *)
Lemma init_registry_ok (default : string) :
  dict_ok (registered_sources (@init Handler default)).
Proof. constructor. Qed.

Lemma register_source_registry_ok self (now : Z) (id ty : string)
  (h : Handler) (prio : Z) :
  dict_ok (registered_sources self) ->
  dict_ok (registered_sources (register_source now id ty h prio self)).
Proof. apply (Dict.set_ok _ String.eqb_eq). Qed.

(** Two lookups for different types never return the same id. *)
Lemma lookups_differ self (t1 t2 id1 id2 : string) :
  dict_ok (registered_sources self) -> t1 <> t2 ->
  _get_source_by_type self t1 = Some id1 ->
  _get_source_by_type self t2 = Some id2 ->
  id1 <> id2.
Proof.
  intros Hok Hne H1 H2 Heq. subst id2.
  destruct (get_source_by_type_registered _ _ _ H1) as (i1 & Hin1 & Ht1).
  destruct (get_source_by_type_registered _ _ _ H2) as (i2 & Hin2 & Ht2).
  assert (i1 = i2) by (eapply Dict.value_unique; eassumption).
  subst i2. congruence.
Qed.

Lemma nodup_pair (a b : string) : a <> b -> NoDup [a; b].
Proof.
  intro H. constructor; [simpl; intuition congruence|].
  constructor; [simpl; tauto | constructor].
Qed.

Lemma nodup_single (a : string) : NoDup [a].
Proof. constructor; [simpl; tauto | constructor]. Qed.

Lemma memory_first_no_duplicates self (query : string)
  (context : RequestContext) :
  dict_ok (registered_sources self) ->
  NoDup (sources_to_query (_route_memory_first self query context)).
Proof.
  intro Hok. unfold _route_memory_first.
  destruct (_get_source_by_type self "memory") as [m|] eqn:Em;
    destruct (_get_source_by_type self "web_search") as [w|] eqn:Ew;
    cbn [truthy_opt the];
    try destruct (truthy m); try destruct (truthy w);
    cbn [app sources_to_query];
    try apply nodup_single; try apply NoDup_nil.
  apply nodup_pair.
  eapply (lookups_differ self "memory" "web_search"); try eassumption.
  discriminate.
Qed.

Lemma external_first_no_duplicates self (query : string)
  (context : RequestContext) :
  dict_ok (registered_sources self) ->
  NoDup (sources_to_query (_route_external_first self query context)).
Proof.
  intro Hok. unfold _route_external_first.
  destruct (_get_source_by_type self "memory") as [m|] eqn:Em;
    destruct (_get_source_by_type self "web_search") as [w|] eqn:Ew;
    cbn [truthy_opt the];
    try destruct (truthy m); try destruct (truthy w);
    cbn [app sources_to_query];
    try apply nodup_single; try apply NoDup_nil.
  apply nodup_pair.
  eapply (lookups_differ self "web_search" "memory"); try eassumption.
  discriminate.
Qed.

Lemma handler_no_duplicates (s : RoutingStrategy) self (query : string)
  (context : RequestContext) :
  dict_ok (registered_sources self) ->
  NoDup (sources_to_query (handler_of s self query context)).
Proof.
  intro Hok. destruct s; cbn [handler_of].
  - apply memory_first_no_duplicates, Hok.
  - apply external_first_no_duplicates, Hok.
  - exact Hok.
  - unfold _route_memory_only.
    destruct (truthy_opt _); cbn [sources_to_query];
      [apply nodup_single | constructor].
  - unfold _route_external_only.
    destruct (truthy_opt _); cbn [sources_to_query];
      [apply nodup_single | constructor].
Qed.

Lemma known_strategy_value (s : RoutingStrategy) :
  known_strategy (strategy_value s) = Some s.
Proof. destruct s; reflexivity. Qed.

Lemma known_strategy_sound (str : string) (s : RoutingStrategy) :
  known_strategy str = Some s -> str = strategy_value s.
Proof.
  unfold known_strategy.
  repeat match goal with
         | |- context [String.eqb str ?c] =>
             destruct (String.eqb_spec str c);
             [intro H; injection H as <-; assumption|]
         end.
  discriminate.
Qed.

Lemma known_strategy_none (str : string) :
  known_strategy str = None <-> forall s, str <> strategy_value s.
Proof.
  split.
  - intros H s Heq. subst str. rewrite known_strategy_value in H.
    discriminate.
  - intro H. destruct (known_strategy str) as [s|] eqn:E; [|reflexivity].
    apply known_strategy_sound in E. elim (H s E).
Qed.

(** What [route_request] does, by the strategy in force. *)
Lemma route_request_by_strategy self (stamp query : string)
  (strategy : option string) (context : option RequestContext) :
  route_request stamp query strategy context self
  = match known_strategy (effective_strategy self strategy) with
    | Some s =>
        let d := handler_of s self query (context_or_empty context) in
        (Ok d, _log_routing_decision stamp d query self)
    | None =>
        (Raise (ValueError ("Unknown routing strategy: "
                              ++ effective_strategy self strategy)), self)
    end.
Proof.
  unfold route_request, known_strategy. fold (context_or_empty context).
  cbn [strategy_value].
  repeat match goal with
         | |- context [String.eqb ?x ?c] =>
             destruct (String.eqb x c); [reflexivity|]
         end.
  reflexivity.
Qed.

Lemma handler_strategy (s : RoutingStrategy) self (query : string)
  (context : RequestContext) :
  strategy (handler_of s self query context) = s.
Proof.
  destruct s; cbn [handler_of];
    [unfold _route_memory_first | reflexivity | reflexivity
     | reflexivity | reflexivity].
  destruct (truthy_opt (_get_source_by_type self "memory"));
    destruct (truthy_opt (_get_source_by_type self "web_search"));
    reflexivity.
Qed.

Lemma effective_strategy_of_member self (s : RoutingStrategy) :
  effective_strategy self (Some (strategy_value s)) = strategy_value s.
Proof. destruct s; reflexivity. Qed.

(** C10.  On every registry (ids are the keys of a dictionary, hence
    unique), for every query and each of the five strategies,
    [route_request] returns a decision for that strategy whose
    [sources_to_query] lists no id twice. *)
Theorem routing_selection_has_no_duplicates self (stamp query : string)
  (s : RoutingStrategy) (context : option RequestContext) :
  dict_ok (registered_sources self) ->
  exists d : RoutingDecision,
    fst (route_request stamp query (Some (strategy_value s)) context self)
    = Ok d
    /\ strategy d = s
    /\ NoDup (sources_to_query d).
Proof.
  intro Hok. rewrite route_request_by_strategy.
  rewrite effective_strategy_of_member, known_strategy_value. cbn [fst].
  eexists. split; [reflexivity|]. split.
  - apply handler_strategy.
  - apply handler_no_duplicates, Hok.
Qed.

(** C6, as amended.  [route_request] acts on the strategy in force: the
    argument when it is a non-empty string, the router's default when the
    argument is [None] or the empty string.  If that string is the value of
    one of the five strategies, the handler of that strategy produces the
    decision, which is logged and returned; otherwise [ValueError] is
    raised at once, with nothing logged. *)
Theorem route_request_dispatches_on_strategy_in_force self
  (stamp query : string) (strategy : option string)
  (context : option RequestContext) :
  route_request stamp query strategy context self
  = match known_strategy (effective_strategy self strategy) with
    | Some s =>
        let d := handler_of s self query (context_or_empty context) in
        (Ok d, _log_routing_decision stamp d query self)
    | None =>
        (Raise (ValueError ("Unknown routing strategy: "
                              ++ effective_strategy self strategy)), self)
    end
  /\ (forall s : RoutingStrategy, known_strategy (strategy_value s) = Some s)
  /\ (forall str : string,
        known_strategy str = None <-> forall s, str <> strategy_value s)
  /\ effective_strategy self None = default_strategy self
  /\ effective_strategy self (Some EmptyString) = default_strategy self
  /\ (forall (c : ascii) (str : string),
        effective_strategy self (Some (String c str)) = String c str).
Proof.
  split; [apply route_request_by_strategy|].
  split; [apply known_strategy_value|].
  split; [apply known_strategy_none|].
  repeat split.
Qed.

(** *** The memory-first handler, case by case *)

(** Both lookups return a non-empty id. *)
Lemma memory_first_memory_then_web self (query : string)
  (context : RequestContext) (m w : string) :
  _get_source_by_type self "memory" = Some m -> truthy m = true ->
  _get_source_by_type self "web_search" = Some w -> truthy w = true ->
  _route_memory_first self query context
  = mkDecision MEMORY_FIRST [m; w] 0.8
      "Memory-first strategy: querying memory first, with web fallback".
Proof.
  intros Hm Tm Hw Tw. unfold _route_memory_first.
  rewrite Hm, Hw. cbn [truthy_opt the]. rewrite Tm, Tw. reflexivity.
Qed.

(** No memory source is registered, a web-search source with a non-empty
    id is. *)
Lemma memory_first_web_only self (query : string)
  (context : RequestContext) (w : string) :
  has_source_of_type self "memory" = false ->
  _get_source_by_type self "web_search" = Some w -> truthy w = true ->
  _route_memory_first self query context
  = mkDecision MEMORY_FIRST [w] 0.8
      "No memory source available, using web search".
Proof.
  intros Hm Hw Tw. unfold _route_memory_first.
  destruct (_get_source_by_type self "memory") as [m|] eqn:Em.
  - assert (has_source_of_type self "memory" = true); [|congruence].
    apply get_source_by_type_found. exists m. exact Em.
  - rewrite Hw. cbn [truthy_opt the]. rewrite Tw. reflexivity.
Qed.

(** Neither a memory nor a web-search source is registered. *)
Lemma memory_first_nothing self (query : string) (context : RequestContext) :
  has_source_of_type self "memory" = false ->
  has_source_of_type self "web_search" = false ->
  _route_memory_first self query context
  = mkDecision MEMORY_FIRST [] 0.5 "Memory-first strategy: ".
Proof.
  intros Hm Hw. unfold _route_memory_first.
  destruct (_get_source_by_type self "memory") as [m|] eqn:Em.
  - assert (has_source_of_type self "memory" = true); [|congruence].
    apply get_source_by_type_found. exists m. exact Em.
  - destruct (_get_source_by_type self "web_search") as [w|] eqn:Ew.
    + assert (has_source_of_type self "web_search" = true); [|congruence].
      apply get_source_by_type_found. exists w. exact Ew.
    + reflexivity.
Qed.

(** The estimate is 0.8 with a selection, 0.5 without. *)
Lemma memory_first_expected_quality self (query : string)
  (context : RequestContext) :
  expected_quality (_route_memory_first self query context)
  = match sources_to_query (_route_memory_first self query context) with
    | [] => 0.5
    | _ => 0.8
    end.
Proof.
  unfold _route_memory_first.
  destruct (truthy_opt (_get_source_by_type self "memory"));
    destruct (truthy_opt (_get_source_by_type self "web_search"));
    reflexivity.
Qed.

End RouterFacts.

(** ** The router on concrete registries *)

Lemma fixture_router_registry_ok :
  dict_ok (Router.registered_sources fixture_router).
Proof.
  apply register_source_registry_ok, register_source_registry_ok,
    init_registry_ok.
Qed.

Lemma routing_selection_has_no_duplicates_witness :
  exists d : Router.RoutingDecision,
    fst (Router.route_request "2024-01-01T00:00:00" "test query"
           (Some (Router.strategy_value Router.BALANCED)) None fixture_router)
    = Ok d
    /\ Router.strategy d = Router.BALANCED
    /\ NoDup (Router.sources_to_query d).
Proof.
  apply (routing_selection_has_no_duplicates fixture_router
           "2024-01-01T00:00:00" "test query" Router.BALANCED None).
  unfold dict_ok. simpl.
  repeat (constructor; [simpl; intuition discriminate|]). constructor.
Defined.

(** The spec's own test: with the fixture's two sources, memory-first
    selects the memory source, then the web source, at quality 0.8. *)
Example fixture_memory_first :
  fst (Router.route_request "2024-01-01T00:00:00" "test query"
         (Some "memory_first"%string) None fixture_router)
  = Ok (Router.mkDecision Router.MEMORY_FIRST ["memory"; "web"]%string 0.8
          "Memory-first strategy: querying memory first, with web fallback").
Proof. reflexivity. Qed.

(** C6, counterexample.  The empty string is none of the five strategy
    values, yet a request that names it is not rejected: it is routed by
    the router's default strategy. *)
Lemma empty_strategy_is_routed_by_default :
  (forall s : Router.RoutingStrategy,
      EmptyString <> Router.strategy_value s)
  /\ fst (Router.route_request "2024-01-01T00:00:00" "test query"
            (Some EmptyString) None fixture_router)
     = Ok (Router.mkDecision Router.MEMORY_FIRST ["memory"; "web"]%string 0.8
             "Memory-first strategy: querying memory first, with web fallback").
Proof.
  split; [intros s; destruct s; discriminate | reflexivity].
Qed.

(** C5, at the failing input.  A memory source registered under the empty
    id and a web-search source "web" are both registered, and the lookup
    does return the memory source; memory-first nevertheless selects the
    web source alone and reports that no memory source is available. *)
Theorem memory_first_ignores_unnamed_memory_source :
  has_source_of_type unnamed_memory_router "memory" = true
  /\ has_source_of_type unnamed_memory_router "web_search" = true
  /\ Router._get_source_by_type unnamed_memory_router "memory"
     = Some EmptyString
  /\ Router._get_source_by_type unnamed_memory_router "web_search"
     = Some "web"%string
  /\ fst (Router.route_request "2024-01-01T00:00:00" "test query"
            (Some "memory_first"%string) None unnamed_memory_router)
     = Ok (Router.mkDecision Router.MEMORY_FIRST ["web"%string] 0.8
             "No memory source available, using web search").
Proof. repeat split. Qed.

(** * Properties of the synthesis *)

Section SynthesisFacts.

Import Router.

Lemma insert_desc_perm (x : ContentBlock.t) (l : list ContentBlock.t) :
  Permutation (x :: l) (insert_desc relevance_lt x l).
Proof.
  induction l as [|y l IH]; simpl.
  - apply Permutation_refl.
  - destruct (relevance_lt x y).
    + eapply perm_trans; [apply perm_swap|]. apply perm_skip, IH.
    + apply Permutation_refl.
Qed.

Lemma sorted_desc_perm (l : list ContentBlock.t) :
  Permutation l (sorted_desc relevance_lt l).
Proof.
  induction l as [|x l IH]; simpl.
  - apply perm_nil.
  - eapply perm_trans; [apply perm_skip, IH | apply insert_desc_perm].
Qed.

Lemma relevance_lt_true (a b : ContentBlock.t) :
  relevance_lt a b = true ->
  ContentBlock.relevance_score a < ContentBlock.relevance_score b.
Proof.
  unfold relevance_lt, Py.lt. intro H. apply negb_true_iff in H.
  apply Qnot_le_lt. intro Hle. apply Qle_bool_iff in Hle. congruence.
Qed.

Lemma relevance_lt_false (a b : ContentBlock.t) :
  relevance_lt a b = false ->
  ContentBlock.relevance_score b <= ContentBlock.relevance_score a.
Proof.
  unfold relevance_lt, Py.lt. intro H. apply negb_false_iff in H.
  apply Qle_bool_iff. exact H.
Qed.

Lemma insert_desc_descending (x : ContentBlock.t) (l : list ContentBlock.t) :
  descending l -> descending (insert_desc relevance_lt x l).
Proof.
  unfold descending. induction 1 as [|y l Hl IH Hy]; simpl.
  - repeat constructor.
  - destruct (relevance_lt x y) eqn:E.
    + constructor; [exact IH|].
      eapply Permutation_Forall; [apply insert_desc_perm|].
      constructor; [|exact Hy].
      apply Qlt_le_weak, relevance_lt_true, E.
    + pose proof (relevance_lt_false _ _ E) as Hxy.
      constructor; [constructor; assumption|].
      constructor; [exact Hxy|].
      eapply Forall_impl; [|exact Hy]. intros b Hb. simpl in Hb.
      eapply Qle_trans; eassumption.
Qed.

Lemma sorted_desc_descending (l : list ContentBlock.t) :
  descending (sorted_desc relevance_lt l).
Proof.
  induction l as [|x l IH]; simpl.
  - constructor.
  - apply insert_desc_descending, IH.
Qed.

(** The aggregated text: the blocks in descending order of relevance, each
    as its body, a newline and the attribution line, joined by an empty
    line. *)
Lemma aggregate_content_layout (blocks : list ContentBlock.t) :
  exists ranked : list ContentBlock.t,
    Permutation blocks ranked /\ descending ranked
    /\ _aggregate_content blocks = Py.join (nl ++ nl) (map attributed ranked)
    /\ forall b, attributed b
                 = (ContentBlock.body b ++ nl ++ "[Source: "
                      ++ ContentSource.name (ContentBlock.source b) ++ "]")%string.
Proof.
  exists (sorted_desc relevance_lt blocks).
  split; [apply sorted_desc_perm|]. split; [apply sorted_desc_descending|].
  split; [destruct blocks; reflexivity | reflexivity].
Qed.

(** Two blocks of different relevance come out with the more relevant
    first, in whichever order they were given. *)
Lemma aggregate_two_blocks (hi lo : ContentBlock.t) :
  ContentBlock.relevance_score lo < ContentBlock.relevance_score hi ->
  _aggregate_content [hi; lo]
  = (attributed hi ++ (nl ++ nl) ++ attributed lo)%string
  /\ _aggregate_content [lo; hi]
     = (attributed hi ++ (nl ++ nl) ++ attributed lo)%string.
Proof.
  intro H. unfold _aggregate_content. cbn [sorted_desc insert_desc].
  assert (E1 : relevance_lt hi lo = false).
  { unfold relevance_lt, Py.lt. apply negb_false_iff, Qle_bool_iff.
    apply Qlt_le_weak, H. }
  assert (E2 : relevance_lt lo hi = true).
  { unfold relevance_lt, Py.lt. apply negb_true_iff.
    destruct (Qle_bool _ _) eqn:E; [|reflexivity].
    apply Qle_bool_iff in E. apply Qle_not_lt in E. contradiction. }
  rewrite E1, E2. split; reflexivity.
Qed.

Lemma mean_relevance_two (a b : ContentBlock.t) :
  mean_relevance [a; b]
  == (ContentBlock.relevance_score a + ContentBlock.relevance_score b) / 2.
Proof.
  unfold mean_relevance, Py.sum. simpl. field.
Qed.

(** A block list that is not empty cannot be synthesized: building the set
    of sources hashes the first source, which raises. *)
Lemma synthesize_content_raises_on_blocks (stamp : string) (now : Z)
  (query : string) (b : ContentBlock.t) (rest : list ContentBlock.t) :
  synthesize_content stamp now query (b :: rest)
  = Raise (TypeError "unhashable type: 'ContentSource'").
Proof. reflexivity. Qed.

(** C7.  For an empty block sequence [synthesize_content] returns
    normally: the aggregated text is empty, the quality score is 0, and
    "No content available for query" is among the gaps. *)
Theorem synthesize_content_of_no_blocks (stamp : string) (now : Z)
  (query : string) :
  exists r : SynthesizedContent.t,
    synthesize_content stamp now query [] = Ok r
    /\ SynthesizedContent.aggregated_content r = EmptyString
    /\ SynthesizedContent.quality_score r = 0
    /\ In "No content available for query"%string (SynthesizedContent.gaps r)
    /\ SynthesizedContent.sources r = []
    /\ SynthesizedContent.contradictions r = [].
Proof.
  eexists. split; [reflexivity|]. cbn [SynthesizedContent.aggregated_content
    SynthesizedContent.quality_score SynthesizedContent.gaps
    SynthesizedContent.sources SynthesizedContent.contradictions].
  split; [reflexivity|]. split; [reflexivity|]. split.
  - unfold _identify_gaps. apply in_or_app. right. left. reflexivity.
  - split; reflexivity.
Qed.

(** C2, at the failing input.  For the two blocks of the repository's own
    test, which come from sources of distinct ids, [synthesize_content]
    returns no [SynthesizedContent] at all: [set(...)] over the sources
    raises [TypeError], so there is no [sources] field of length 2. *)
Theorem synthesize_content_distinct_sources_raises (stamp : string) (now : Z) :
  ContentSource.source_id memory_source <> ContentSource.source_id web_source
  /\ map ContentBlock.source [memory_block; web_block] = [memory_source; web_source]
  /\ set_of_sources [memory_source; web_source] []
     = Raise (TypeError "unhashable type: 'ContentSource'")
  /\ synthesize_content stamp now "test query" [memory_block; web_block]
     = Raise (TypeError "unhashable type: 'ContentSource'").
Proof.
  split; [discriminate|]. repeat split.
Qed.

(** C8, at the failing input.  For blocks of relevance 0.9 and 0.8 the
    aggregated text does put the 0.9 block first and the mean relevance is
    0.85, but no result carries them: [synthesize_content] raises
    [TypeError] while it collects the sources, in either input order. *)
Theorem synthesize_content_ranked_blocks_raises (stamp : string) (now : Z) :
  ContentBlock.relevance_score memory_block = 0.9
  /\ ContentBlock.relevance_score web_block = 0.8
  /\ _aggregate_content [web_block; memory_block]
     = (ContentBlock.body memory_block ++ nl ++ "[Source: Memory Source]"
          ++ nl ++ nl
          ++ ContentBlock.body web_block ++ nl ++ "[Source: Web Source]")%string
  /\ mean_relevance [web_block; memory_block] == 0.85
  /\ synthesize_content stamp now "test query" [web_block; memory_block]
     = Raise (TypeError "unhashable type: 'ContentSource'")
  /\ synthesize_content stamp now "test query" [memory_block; web_block]
     = Raise (TypeError "unhashable type: 'ContentSource'").
Proof. repeat split. Qed.

End SynthesisFacts.

(** * Further properties of the quality scorer *)

Section ScorerBehaviour.

Import Scorer.

Lemma dict_get_head_key (d : list (ScoringFactors * Q)) (k : ScoringFactors)
  (v : Q) (rest : list (ScoringFactors * Q)) :
  d = (k, v) :: rest -> dict_item factor_eqb k d = Ok v.
Proof.
  intros ->. unfold dict_item. cbn [dict_get]. rewrite factor_eqb_refl.
  reflexivity.
Qed.

Lemma dict_set_not_empty (k : ScoringFactors) (v : Q)
  (d : list (ScoringFactors * Q)) :
  dict_set factor_eqb k v d <> [].
Proof. destruct d as [|[k' v'] d]; simpl; [|destruct (factor_eqb k' k)]; discriminate. Qed.

(** With a zero total the loop stops at its first division. *)
Lemma normalize_loop_zero_total (t : Q) (d : list (ScoringFactors * Q)) :
  d <> [] -> t == 0 ->
  normalize_loop (Py.keys d) t d
  = (Raise (ZeroDivisionError "float division by zero"), d).
Proof.
  intros Hne Ht. destruct d as [|[k v] rest]; [contradiction|].
  cbn [Py.keys map fst normalize_loop].
  rewrite (dict_get_head_key _ k v rest eq_refl).
  unfold Py.truediv. apply Qeq_bool_iff in Ht. rewrite Ht. reflexivity.
Qed.

(** X1.  A call of [set_factor_weight] with a weight in [0,1] has one of two
    outcomes.  Either the total after the assignment is zero: then
    [ZeroDivisionError] is raised and the table keeps the assignment, with
    nothing divided.  Or the total is not zero: then the call returns and
    the table sums to 1. *)
Theorem set_factor_weight_in_range_outcomes
  (self : QualityScorer) (f : ScoringFactors) (w : Q) :
  dict_ok (factor_weights self) ->
  0 <= w <= 1 ->
  (assigned_total self f w == 0
   /\ set_factor_weight f w self
      = (Raise (ZeroDivisionError "float division by zero"),
         with_weights self (assigned self f w)))
  \/ (~ assigned_total self f w == 0
      /\ fst (set_factor_weight f w self) = Ok tt
      /\ weights_total (snd (set_factor_weight f w self)) == 1).
Proof.
  intros Hok Hw.
  destruct (Qeq_dec (assigned_total self f w) 0) as [Hz|Hnz].
  - left. split; [exact Hz|].
    unfold set_factor_weight. rewrite (in_range_accepted w Hw).
    fold (assigned self f w). fold (assigned_total self f w).
    rewrite normalize_loop_zero_total;
      [reflexivity | apply dict_set_not_empty | exact Hz].
  - right. split; [exact Hnz|].
    destruct (set_factor_weight_divides_by_total self f w Hok Hw Hnz)
      as (Hr & _ & _ & Hs).
    split; assumption.
Qed.

Lemma set_factor_weight_in_range_outcomes_witness :
  (assigned_total feedback_only USER_FEEDBACK 0 == 0
   /\ set_factor_weight USER_FEEDBACK 0 feedback_only
      = (Raise (ZeroDivisionError "float division by zero"),
         with_weights feedback_only (assigned feedback_only USER_FEEDBACK 0)))
  \/ (~ assigned_total feedback_only USER_FEEDBACK 0 == 0
      /\ fst (set_factor_weight USER_FEEDBACK 0 feedback_only) = Ok tt
      /\ weights_total (snd (set_factor_weight USER_FEEDBACK 0 feedback_only))
         == 1).
Proof.
  apply (set_factor_weight_in_range_outcomes feedback_only USER_FEEDBACK 0).
  - unfold dict_ok. simpl.
    repeat (constructor; [simpl; intuition discriminate|]). constructor.
  - split; discriminate.
Defined.

Lemma nonneg_scale (t : Q) (d : list (ScoringFactors * Q)) :
  0 < t -> nonneg_weights d -> nonneg_weights (map (scale t) d).
Proof.
  intros Ht H. unfold nonneg_weights in *. apply Forall_map.
  eapply Forall_impl; [|exact H]. intros [k v] Hv. simpl in *.
  apply div_nonneg; assumption.
Qed.

(** X2.  On a table of non-negative weights a positive weight is always
    accepted: [set_factor_weight(f, w)] with [0 < w <= 1] returns, and the
    table it leaves has unique keys, sums to 1 and holds only weights
    within [0,1]. *)
Theorem set_factor_weight_positive_succeeds
  (self : QualityScorer) (f : ScoringFactors) (w : Q) :
  dict_ok (factor_weights self) ->
  nonneg_weights (factor_weights self) ->
  0 < w <= 1 ->
  fst (set_factor_weight f w self) = Ok tt
  /\ dict_ok (factor_weights (snd (set_factor_weight f w self)))
  /\ weights_total (snd (set_factor_weight f w self)) == 1
  /\ forall k v,
       dict_get factor_eqb k (factor_weights (snd (set_factor_weight f w self)))
       = Some v -> 0 <= v <= 1.
Proof.
  intros Hok Hnn [Hpos Hle].
  assert (Hnn' : nonneg_weights (assigned self f w)).
  { apply nonneg_dict_set; [lra | exact Hnn]. }
  assert (Hf : dict_get factor_eqb f (assigned self f w) = Some w).
  { apply dict_get_set_same. }
  assert (Htot : 0 < assigned_total self f w).
  { pose proof (entry_le_total _ _ _ Hnn' Hf). unfold assigned_total. lra. }
  destruct (set_factor_weight_divides_by_total self f w Hok)
    as (Hr & Hfw & _ & Hs); [lra | lra |].
  split; [exact Hr|]. rewrite Hfw. split; [|split; [exact Hs|]].
  - unfold dict_ok. rewrite keys_scale. apply dict_set_ok, Hok.
  - intros k v Hv. rewrite dict_get_scale in Hv.
    destruct (dict_get factor_eqb k (assigned self f w)) as [u|] eqn:Eu;
      [|discriminate].
    injection Hv as <-.
    pose proof (entry_le_total _ _ _ Hnn' Eu) as Hu.
    fold (assigned_total self f w) in Hu.
    assert (H0 : 0 <= u).
    { clear - Hnn' Eu. unfold nonneg_weights in Hnn'.
      induction (assigned self f w) as [|[k' v'] d IH]; [discriminate|].
      inversion Hnn'; subst. simpl in Eu.
      destruct (factor_eqb k' k); [injection Eu as <-; assumption | auto]. }
    split; [apply div_nonneg; assumption|].
    apply Qle_shift_div_r; [exact Htot | lra].
Qed.

Lemma set_factor_weight_positive_succeeds_witness :
  fst (set_factor_weight PROCESSING_QUALITY (1 # 4) init) = Ok tt
  /\ dict_ok (factor_weights (snd (set_factor_weight PROCESSING_QUALITY
                                     (1 # 4) init)))
  /\ weights_total (snd (set_factor_weight PROCESSING_QUALITY (1 # 4) init))
     == 1
  /\ forall k v,
       dict_get factor_eqb k
         (factor_weights (snd (set_factor_weight PROCESSING_QUALITY
                                 (1 # 4) init)))
       = Some v -> 0 <= v <= 1.
Proof.
  apply (set_factor_weight_positive_succeeds init PROCESSING_QUALITY (1 # 4)).
  - unfold dict_ok. simpl.
    repeat (constructor; [simpl; intuition discriminate|]). constructor.
  - unfold nonneg_weights. simpl. repeat constructor; discriminate.
  - split; [reflexivity | discriminate].
Defined.

Lemma total_after_assignment (k : ScoringFactors) (w : Q)
  (d : list (ScoringFactors * Q)) :
  Py.sum (Py.values (dict_set factor_eqb k w d))
  == Py.sum (Py.values d) - weight_or_zero d k + w.
Proof.
  unfold weight_or_zero. induction d as [|[k' v'] d IH]; simpl.
  - unfold Py.sum. simpl. ring.
  - destruct (factor_eqb k' k); simpl; rewrite !sum_cons.
    + ring.
    + fold (Py.values (dict_set factor_eqb k w d)). rewrite IH.
      fold (Py.values d). ring.
Qed.

Lemma weight_or_zero_scale (t : Q) (d : list (ScoringFactors * Q))
  (k : ScoringFactors) :
  weight_or_zero (map (scale t) d) k == weight_or_zero d k / t.
Proof.
  unfold weight_or_zero. rewrite dict_get_scale.
  destruct (dict_get factor_eqb k d); simpl; [reflexivity|].
  unfold Qdiv. ring.
Qed.

Lemma weight_or_zero_assigned (self : QualityScorer) (f k : ScoringFactors)
  (w : Q) :
  weight_or_zero (assigned self f w) k
  = if factor_eqb f k then w else weight_or_zero (factor_weights self) k.
Proof.
  unfold weight_or_zero, assigned. destruct (factor_eqb f k) eqn:E.
  - apply factor_eqb_eq in E. subst k. rewrite dict_get_set_same. reflexivity.
  - rewrite dict_get_set_other; [reflexivity|].
    intro Heq. subst k. rewrite factor_eqb_refl in E. discriminate.
Qed.

(** X3.  After a successful [set_factor_weight(f, w)] every factor weighs
    its value after the assignment divided by [T - old + w], where [T] is
    the previous total and [old] the previous weight of [f] (0 for a factor
    the table did not have).  The weight stored for [f] is therefore
    [w / (T - old + w)], not [w]. *)
Theorem set_factor_weight_resulting_weights
  (self : QualityScorer) (f : ScoringFactors) (w : Q) :
  dict_ok (factor_weights self) ->
  0 <= w <= 1 ->
  ~ weights_total self - weight_or_zero (factor_weights self) f + w == 0 ->
  fst (set_factor_weight f w self) = Ok tt
  /\ forall k,
       weight_or_zero (factor_weights (snd (set_factor_weight f w self))) k
       == (if factor_eqb f k then w
           else weight_or_zero (factor_weights self) k)
          / (weights_total self - weight_or_zero (factor_weights self) f + w).
Proof.
  intros Hok Hw Hnz.
  assert (Ht : assigned_total self f w
               == weights_total self
                  - weight_or_zero (factor_weights self) f + w).
  { apply total_after_assignment. }
  destruct (set_factor_weight_divides_by_total self f w Hok Hw)
    as (Hr & Hfw & _ & _).
  { rewrite Ht. exact Hnz. }
  split; [exact Hr|]. intro k. rewrite Hfw, weight_or_zero_scale.
  rewrite weight_or_zero_assigned, Ht. reflexivity.
Qed.

Lemma set_factor_weight_resulting_weights_witness :
  fst (set_factor_weight RELEVANCE (1 # 2) init) = Ok tt
  /\ forall k,
       weight_or_zero
         (factor_weights (snd (set_factor_weight RELEVANCE (1 # 2) init))) k
       == (if factor_eqb RELEVANCE k then 1 # 2
           else weight_or_zero (factor_weights init) k)
          / (weights_total init
             - weight_or_zero (factor_weights init) RELEVANCE + (1 # 2)).
Proof.
  apply (set_factor_weight_resulting_weights init RELEVANCE (1 # 2)).
  - unfold dict_ok. simpl.
    repeat (constructor; [simpl; intuition discriminate|]). constructor.
  - split; discriminate.
  - vm_compute. discriminate.
Defined.

(** X4.  [set_source_reliability] with a value in [0,1] returns; afterwards
    [_score_source_reliability] gives exactly that value for the source
    type set and what it gave before for every other type, and the factor
    weights are untouched. *)
Theorem set_source_reliability_then_lookup
  (self : QualityScorer) (source_type : string) (reliability : Q) :
  0 <= reliability <= 1 ->
  fst (set_source_reliability source_type reliability self) = Ok tt
  /\ _score_source_reliability
       (snd (set_source_reliability source_type reliability self)) source_type
     = reliability
  /\ (forall other, other <> source_type ->
        _score_source_reliability
          (snd (set_source_reliability source_type reliability self)) other
        = _score_source_reliability self other)
  /\ factor_weights (snd (set_source_reliability source_type reliability self))
     = factor_weights self.
Proof.
  intros Hr. unfold set_source_reliability.
  rewrite (in_range_accepted reliability Hr). cbn [fst snd].
  unfold _score_source_reliability. cbn [source_reliability_scores].
  split; [reflexivity|]. split; [|split; [|reflexivity]].
  - rewrite (Dict.get_set_same _ String.eqb_eq). reflexivity.
  - intros other Hne.
    rewrite (Dict.get_set_other _ String.eqb_eq); [reflexivity|].
    intro Heq. apply Hne. symmetry. exact Heq.
Qed.

Lemma set_source_reliability_then_lookup_witness :
  fst (set_source_reliability "custom" (4 # 5) init) = Ok tt
  /\ _score_source_reliability
       (snd (set_source_reliability "custom" (4 # 5) init)) "custom"
     = (4 # 5)
  /\ (forall other, other <> "custom"%string ->
        _score_source_reliability
          (snd (set_source_reliability "custom" (4 # 5) init)) other
        = _score_source_reliability init other)
  /\ factor_weights (snd (set_source_reliability "custom" (4 # 5) init))
     = factor_weights init.
Proof.
  apply (set_source_reliability_then_lookup init "custom" (4 # 5)).
  split; discriminate.
Defined.

Lemma length_score_bounds (n : nat) :
  0 <= Qmin (inject_Z (Z.of_nat n) / 500) 1.0 <= 1.
Proof.
  assert (H0 : 0 <= inject_Z (Z.of_nat n)).
  { change 0 with (inject_Z 0). rewrite <- Zle_Qle. lia. }
  change (inject_Z (Z.of_nat n) / 500)
    with (inject_Z (Z.of_nat n) * (1 # 500)).
  split.
  - apply Q.min_glb; lra.
  - eapply Qle_trans; [apply Q.le_min_r | discriminate].
Qed.

(** X5.  The completeness score blends the caller's score with a length
    score that counts whitespace-separated words: it lies between
    [0.7 * base] and [0.7 * base + 0.3], equals the lower bound for content
    without words and the upper bound from 500 words on. *)
Theorem completeness_bounds_and_saturation (content : string) (base : Q) :
  base * 0.7 <= _score_completeness content base <= base * 0.7 + 0.3
  /\ (word_count content = 0%nat ->
      _score_completeness content base == base * 0.7)
  /\ ((500 <= word_count content)%nat ->
      _score_completeness content base == base * 0.7 + 0.3).
Proof.
  unfold _score_completeness. fold (word_count content).
  pose proof (length_score_bounds (word_count content)) as [Hlo Hhi].
  split; [split; lra|]. split.
  - intros H0. rewrite H0.
    assert (E : Qmin (inject_Z (Z.of_nat 0) / 500) 1.0 == 0) by reflexivity.
    rewrite E. ring.
  - intro H.
    assert (E : Qmin (inject_Z (Z.of_nat (word_count content)) / 500) 1.0
                == 1.0).
    { apply Q.min_r.
      change (inject_Z (Z.of_nat (word_count content)) / 500)
        with (inject_Z (Z.of_nat (word_count content)) * (1 # 500)).
      assert (inject_Z 500 <= inject_Z (Z.of_nat (word_count content)))
        by (rewrite <- Zle_Qle; lia).
      change (inject_Z 500) with 500 in H0. lra. }
    rewrite E. ring.
Qed.

Lemma completeness_le (content1 content2 : string) (base1 base2 : Q) :
  (word_count content1 <= word_count content2)%nat -> base1 <= base2 ->
  _score_completeness content1 base1 <= _score_completeness content2 base2.
Proof.
  intros Hw Hb. unfold _score_completeness.
  fold (word_count content1). fold (word_count content2).
  assert (H : Qmin (inject_Z (Z.of_nat (word_count content1)) / 500) 1.0
              <= Qmin (inject_Z (Z.of_nat (word_count content2)) / 500) 1.0).
  { apply Q.min_le_compat_r.
    change (inject_Z (Z.of_nat (word_count content1)) / 500)
      with (inject_Z (Z.of_nat (word_count content1)) * (1 # 500)).
    change (inject_Z (Z.of_nat (word_count content2)) / 500)
      with (inject_Z (Z.of_nat (word_count content2)) * (1 # 500)).
    assert (inject_Z (Z.of_nat (word_count content1))
            <= inject_Z (Z.of_nat (word_count content2)))
      by (rewrite <- Zle_Qle; lia).
    lra. }
  lra.
Qed.

(** X6.  More words never lower the completeness score, and neither does a
    higher caller-supplied score. *)
Theorem completeness_monotone (content1 content2 : string) (base1 base2 : Q) :
  (word_count content1 <= word_count content2)%nat ->
  base1 <= base2 ->
  _score_completeness content1 base1 <= _score_completeness content2 base2.
Proof.
  intros Hw Hb. apply completeness_le; assumption.
Qed.

Lemma completeness_monotone_witness :
  _score_completeness "Short text" (1 # 2)
  <= _score_completeness "A somewhat longer text" (1 # 2).
Proof.
  apply (completeness_monotone "Short text" "A somewhat longer text"
           (1 # 2) (1 # 2)).
  - vm_compute. lia.
  - discriminate.
Defined.

(** The repository's test compares a two-word text with one word of a
    thousand letters: the word count, not the length, decides. *)
Example completeness_counts_words :
  word_count "Short text" = 2%nat
  /\ word_count "AAAAAAAAAAAAAAAAAAAAAAAAAAAAAAAAAAAAAAAAAAAAAAAAAA" = 1%nat
  /\ _score_completeness
       "AAAAAAAAAAAAAAAAAAAAAAAAAAAAAAAAAAAAAAAAAAAAAAAAAA" 0.5
     < _score_completeness "Short text" 0.5.
Proof. repeat split. Qed.

Lemma ge_true (a b : Q) : Py.ge a b = true -> b <= a.
Proof. apply Qle_bool_iff. Qed.

Lemma ge_false (a b : Q) : Py.ge a b = false -> a < b.
Proof.
  unfold Py.ge. intro H. apply Qnot_le_lt. intro Hle.
  apply Qle_bool_iff in Hle. congruence.
Qed.

(** X7.  The quality level never drops when the score rises: the
    thresholds 0.5, 0.75 and 0.9 cut the scores into four bands, [LOW]
    below [MEDIUM] below [HIGH] below [VERIFIED]. *)
Theorem quality_level_monotone (score1 score2 : Q) :
  score1 <= score2 ->
  (quality_rank (_determine_quality_level score1)
   <= quality_rank (_determine_quality_level score2))%nat.
Proof.
  intro H. unfold _determine_quality_level.
  destruct (Py.ge score1 0.9) eqn:A1; destruct (Py.ge score2 0.9) eqn:A2;
    destruct (Py.ge score1 0.75) eqn:B1; destruct (Py.ge score2 0.75) eqn:B2;
    destruct (Py.ge score1 0.5) eqn:C1; destruct (Py.ge score2 0.5) eqn:C2;
    cbn [quality_rank]; try lia;
    repeat match goal with
           | E : Py.ge _ _ = true |- _ => apply ge_true in E
           | E : Py.ge _ _ = false |- _ => apply ge_false in E
           end; lra.
Qed.

Lemma quality_level_monotone_witness :
  (quality_rank (_determine_quality_level (3 # 5))
   <= quality_rank (_determine_quality_level (19 # 20)))%nat.
Proof.
  apply (quality_level_monotone (3 # 5) (19 # 20)). discriminate.
Defined.

(** X8.  The freshness score always lies in [0.2, 1]: it is 1 for content
    of at most 30 days (content dated in the future included) and stays at
    the floor 0.2 from 584 days on. *)
Theorem freshness_bounds_and_floor (now created_at : Z) :
  0.2 <= _score_freshness now created_at <= 1
  /\ ((_days_old now created_at <= 30)%Z ->
      _score_freshness now created_at = 1.0)
  /\ ((584 <= _days_old now created_at)%Z ->
      _score_freshness now created_at == 0.2).
Proof.
  unfold _score_freshness, freshness_of_days.
  set (d := _days_old now created_at).
  change (inject_Z d / inject_Z (365 * 2)) with (inject_Z d * (1 # 730)).
  split; [|split].
  - destruct (Z.leb_spec d 30); [split; discriminate|].
    destruct (Z.leb_spec d 90); [split; discriminate|].
    destruct (Z.leb_spec d 180); [split; discriminate|].
    destruct (Z.leb_spec d 365); [split; discriminate|].
    split; [apply Q.le_max_l|].
    apply Q.max_lub; [discriminate|].
    assert (inject_Z 0 <= inject_Z d) by (rewrite <- Zle_Qle; lia).
    change (inject_Z 0) with 0 in H3. lra.
  - intro H. destruct (Z.leb_spec d 30); [reflexivity | lia].
  - intro H.
    destruct (Z.leb_spec d 30); [lia|]. destruct (Z.leb_spec d 90); [lia|].
    destruct (Z.leb_spec d 180); [lia|]. destruct (Z.leb_spec d 365); [lia|].
    apply Q.max_l.
    assert (inject_Z 584 <= inject_Z d) by (rewrite <- Zle_Qle; lia).
    change (inject_Z 584) with 584 in H4. lra.
Qed.

Lemma weight_of_core (self : QualityScorer) (f : ScoringFactors) :
  has_core_weights self = true -> In f core_factors ->
  weight_of self f = Ok (weight_or_zero (factor_weights self) f).
Proof.
  intros H Hf. destruct (core_weight_present self f H Hf) as [w Hw].
  rewrite Hw. unfold weight_of, dict_item in Hw. unfold weight_or_zero.
  destruct (dict_get factor_eqb f (factor_weights self));
    [injection Hw as ->; reflexivity | discriminate].
Qed.

(** [score_content] written out for a scorer that holds the core weights. *)
Lemma score_content_written_out (self : QualityScorer) (now : Z)
  (content source_type : string) (created_at : Z)
  (relevance completeness accuracy : Q) (citation_count : Z) (feedback : Q) :
  has_core_weights self = true ->
  score_content self now content source_type created_at relevance
    completeness accuracy citation_count feedback
  = let w := weight_or_zero (factor_weights self) in
    let components :=
      [ mkComponent SOURCE_RELIABILITY (w SOURCE_RELIABILITY)
          (_score_source_reliability self source_type);
        mkComponent CONTENT_FRESHNESS (w CONTENT_FRESHNESS)
          (_score_freshness now created_at);
        mkComponent RELEVANCE (w RELEVANCE) relevance;
        mkComponent COMPLETENESS (w COMPLETENESS)
          (_score_completeness content completeness);
        mkComponent ACCURACY (w ACCURACY) accuracy;
        mkComponent CITATION_COUNT (w CITATION_COUNT)
          (Qmin (inject_Z citation_count / 10) 1.0);
        mkComponent USER_FEEDBACK (w USER_FEEDBACK) feedback ] in
    Ok (mkScoreResult (clamp (Py.sum (map calculate components)))
          (_determine_quality_level
             (clamp (Py.sum (map calculate components))))
          components).
Proof.
  intro H. unfold score_content.
  rewrite !(weight_of_core self _ H) by (simpl; tauto).
  cbn [Py.bind]. cbv zeta. unfold clamp. reflexivity.
Qed.

Lemma weight_or_zero_nonneg (fw : list (ScoringFactors * Q))
  (k : ScoringFactors) :
  nonneg_weights fw -> 0 <= weight_or_zero fw k.
Proof.
  unfold nonneg_weights, weight_or_zero.
  induction 1 as [|[k' v'] d Hv _ IH]; simpl; [discriminate|].
  destruct (factor_eqb k' k); [exact Hv | exact IH].
Qed.

Lemma clamp_monotone (x y : Q) : x <= y -> clamp x <= clamp y.
Proof.
  intro H. unfold clamp.
  apply Q.min_le_compat_r, Q.max_le_compat_r, H.
Qed.

Lemma citation_score_le (c1 c2 : Z) :
  (c1 <= c2)%Z ->
  Qmin (inject_Z c1 / 10) 1.0 <= Qmin (inject_Z c2 / 10) 1.0.
Proof.
  intro H. apply Q.min_le_compat_r.
  change (inject_Z c1 / 10) with (inject_Z c1 * (1 # 10)).
  change (inject_Z c2 / 10) with (inject_Z c2 * (1 # 10)).
  assert (inject_Z c1 <= inject_Z c2) by (rewrite <- Zle_Qle; exact H).
  lra.
Qed.

(** X9.  With non-negative weights the overall score is monotone in what
    the caller supplies: raising the relevance, completeness, accuracy or
    feedback score, or the citation count, never lowers [overall_score],
    all else (content, source type, dates) being equal. *)
Theorem score_content_monotone_in_inputs
  (self : QualityScorer) (now : Z) (content source_type : string)
  (created_at : Z) (relevance1 relevance2 completeness1 completeness2 : Q)
  (accuracy1 accuracy2 : Q) (citations1 citations2 : Z)
  (feedback1 feedback2 : Q) :
  has_core_weights self = true ->
  nonneg_weights (factor_weights self) ->
  relevance1 <= relevance2 -> completeness1 <= completeness2 ->
  accuracy1 <= accuracy2 -> (citations1 <= citations2)%Z ->
  feedback1 <= feedback2 ->
  exists r1 r2 : ScoreResult,
    score_content self now content source_type created_at relevance1
      completeness1 accuracy1 citations1 feedback1 = Ok r1
    /\ score_content self now content source_type created_at relevance2
         completeness2 accuracy2 citations2 feedback2 = Ok r2
    /\ overall_score r1 <= overall_score r2.
Proof.
  intros Hcore Hnn Hr Hc Ha Hn Hf.
  rewrite !(score_content_written_out self) by exact Hcore. cbv zeta.
  eexists. eexists. split; [reflexivity|]. split; [reflexivity|].
  cbn [overall_score]. apply clamp_monotone.
  unfold Py.sum. cbn [map fold_left]. unfold calculate. cbn [value weight].
  pose proof (weight_or_zero_nonneg _ RELEVANCE Hnn) as W3.
  pose proof (weight_or_zero_nonneg _ COMPLETENESS Hnn) as W4.
  pose proof (weight_or_zero_nonneg _ ACCURACY Hnn) as W5.
  pose proof (weight_or_zero_nonneg _ CITATION_COUNT Hnn) as W6.
  pose proof (weight_or_zero_nonneg _ USER_FEEDBACK Hnn) as W7.
  pose proof (Qmult_le_compat_r _ _ _ Hr W3) as M3.
  pose proof (Qmult_le_compat_r _ _ _
                (completeness_le content content _ _ (le_n _) Hc) W4) as M4.
  pose proof (Qmult_le_compat_r _ _ _ Ha W5) as M5.
  pose proof (Qmult_le_compat_r _ _ _ (citation_score_le _ _ Hn) W6) as M6.
  pose proof (Qmult_le_compat_r _ _ _ Hf W7) as M7.
  lra.
Qed.

Lemma score_content_monotone_in_inputs_witness :
  exists r1 r2 : ScoreResult,
    score_content init 0 "Test document" "memory" 0 (1 # 2) (1 # 2) (1 # 2)
      0 (1 # 2) = Ok r1
    /\ score_content init 0 "Test document" "memory" 0 (9 # 10) (1 # 2)
         (1 # 2) 5 (1 # 2) = Ok r2
    /\ overall_score r1 <= overall_score r2.
Proof.
  apply (score_content_monotone_in_inputs init 0 "Test document" "memory" 0
           (1 # 2) (9 # 10) (1 # 2) (1 # 2) (1 # 2) (1 # 2) 0 5
           (1 # 2) (1 # 2)).
  - reflexivity.
  - unfold nonneg_weights. simpl. repeat constructor; discriminate.
  - discriminate.
  - discriminate.
  - discriminate.
  - lia.
  - discriminate.
Defined.

(** X10.  A reliability set for a source type is the one the next scoring
    uses: after [set_source_reliability(t, v)] with [v] in [0,1],
    [score_content] for source type [t] returns a first component of
    factor [SOURCE_RELIABILITY] whose value is [v] and whose weight is the
    weight the table had before. *)
Theorem score_content_uses_set_reliability
  (self : QualityScorer) (now : Z) (content source_type : string)
  (created_at : Z) (reliability relevance completeness accuracy : Q)
  (citation_count : Z) (feedback : Q) :
  0 <= reliability <= 1 ->
  has_core_weights self = true ->
  exists r : ScoreResult,
    score_content (snd (set_source_reliability source_type reliability self))
      now content source_type created_at relevance completeness accuracy
      citation_count feedback = Ok r
    /\ nth_error (components r) 0
       = Some (mkComponent SOURCE_RELIABILITY
                 (weight_or_zero (factor_weights self) SOURCE_RELIABILITY)
                 reliability)
    /\ List.length (components r) = 7%nat.
Proof.
  intros Hr Hcore.
  rewrite score_content_written_out
    by (apply set_source_reliability_keeps_core_weights, Hcore).
  cbv zeta. eexists. split; [reflexivity|]. cbn [components nth_error].
  split; [|reflexivity].
  unfold set_source_reliability. rewrite (in_range_accepted _ Hr).
  cbn [snd factor_weights]. unfold _score_source_reliability.
  cbn [source_reliability_scores].
  rewrite (Dict.get_set_same _ String.eqb_eq). reflexivity.
Qed.

Lemma score_content_uses_set_reliability_witness :
  exists r : ScoreResult,
    score_content (snd (set_source_reliability "custom" (4 # 5) init))
      0 "Test document" "custom" 0 (1 # 2) (1 # 2) (1 # 2) 0 (1 # 2) = Ok r
    /\ nth_error (components r) 0
       = Some (mkComponent SOURCE_RELIABILITY
                 (weight_or_zero (factor_weights init) SOURCE_RELIABILITY)
                 (4 # 5))
    /\ List.length (components r) = 7%nat.
Proof.
  apply (score_content_uses_set_reliability init 0 "Test document" "custom" 0
           (4 # 5) (1 # 2) (1 # 2) (1 # 2) 0 (1 # 2)).
  - split; discriminate.
  - reflexivity.
Defined.

Lemma source_reliability_in_range (self : QualityScorer) (source_type : string) :
  reliabilities_in_range self ->
  0 <= _score_source_reliability self source_type <= 1.
Proof.
  unfold reliabilities_in_range, _score_source_reliability.
  induction 1 as [|[k v] d Hv _ IH]; cbn [dict_get].
  - split; discriminate.
  - destruct (String.eqb k source_type); [exact Hv | exact IH].
Qed.

Lemma init_reliabilities_in_range : reliabilities_in_range init.
Proof.
  unfold reliabilities_in_range. simpl.
  repeat (constructor; [split; discriminate|]). constructor.
Qed.

Lemma set_source_reliability_keeps_range (source_type : string) (v : Q)
  (self : QualityScorer) :
  reliabilities_in_range self ->
  reliabilities_in_range (snd (set_source_reliability source_type v self)).
Proof.
  unfold set_source_reliability, reliabilities_in_range, Py.le. intro H.
  destruct (Qle_bool 0 v) eqn:E0; [|exact H].
  destruct (Qle_bool v 1) eqn:E1; [|exact H].
  cbn [negb andb snd source_reliability_scores].
  apply Qle_bool_iff in E0. apply Qle_bool_iff in E1.
  induction H as [|[k u] d Hu Hd IH]; cbn [dict_set].
  - repeat constructor; assumption.
  - destruct (String.eqb k source_type).
    + constructor; [split; assumption | exact Hd].
    + constructor; [exact Hu | exact IH].
Qed.

Lemma freshness_in_unit (now created_at : Z) :
  0 <= _score_freshness now created_at <= 1.
Proof.
  unfold _score_freshness, freshness_of_days.
  set (d := _days_old now created_at).
  change (inject_Z d / inject_Z (365 * 2)) with (inject_Z d * (1 # 730)).
  destruct (Z.leb_spec d 30); [split; discriminate|].
  destruct (Z.leb_spec d 90); [split; discriminate|].
  destruct (Z.leb_spec d 180); [split; discriminate|].
  destruct (Z.leb_spec d 365); [split; discriminate|].
  split.
  - eapply Qle_trans; [|apply Q.le_max_l]. discriminate.
  - apply Q.max_lub; [discriminate|].
    assert (inject_Z 0 <= inject_Z d) by (rewrite <- Zle_Qle; lia).
    change (inject_Z 0) with 0 in H3. lra.
Qed.

Lemma completeness_in_unit (content : string) (base : Q) :
  0 <= base <= 1 -> 0 <= _score_completeness content base <= 1.
Proof.
  intros [H0 H1]. unfold _score_completeness. fold (word_count content).
  pose proof (length_score_bounds (word_count content)) as [Hlo Hhi].
  split; lra.
Qed.

Lemma citation_score_in_unit (c : Z) :
  (0 <= c)%Z -> 0 <= Qmin (inject_Z c / 10) 1.0 <= 1.
Proof.
  intro H. change (inject_Z c / 10) with (inject_Z c * (1 # 10)).
  assert (inject_Z 0 <= inject_Z c) by (rewrite <- Zle_Qle; exact H).
  change (inject_Z 0) with 0 in H0. split.
  - apply Q.min_glb; [lra | discriminate].
  - eapply Qle_trans; [apply Q.le_min_r | discriminate].
Qed.

Lemma clamp_inactive (x : Q) : 0 <= x <= 1 -> clamp x == x.
Proof.
  intros [H0 H1]. unfold clamp.
  rewrite (Q.max_l x 0) by exact H0. apply Q.min_l. exact H1.
Qed.

Lemma weighted_within (w v : Q) : 0 <= w -> 0 <= v <= 1 -> 0 <= v * w <= w.
Proof.
  intros Hw [H0 H1]. split.
  - apply Qmult_le_0_compat; assumption.
  - setoid_replace w with (1 * w) at 2 by ring.
    apply Qmult_le_compat_r; assumption.
Qed.

(** X28.  On a scorer with exactly the seven core factors, non-negative
    weights summing to 1 and reliabilities in [0,1], scores in [0,1] and a
    non-negative citation count never reach the clamp: [overall_score] is
    the weighted sum of the seven factor values itself, which lies in
    [0,1]. *)
Theorem score_content_is_weighted_sum
  (self : QualityScorer) (now : Z) (content source_type : string)
  (created_at : Z) (relevance completeness accuracy : Q)
  (citation_count : Z) (feedback : Q) :
  Py.keys (factor_weights self) = core_factors ->
  nonneg_weights (factor_weights self) ->
  weights_total self == 1 ->
  reliabilities_in_range self ->
  0 <= relevance <= 1 -> 0 <= completeness <= 1 -> 0 <= accuracy <= 1 ->
  (0 <= citation_count)%Z -> 0 <= feedback <= 1 ->
  exists r : ScoreResult,
    score_content self now content source_type created_at relevance
      completeness accuracy citation_count feedback = Ok r
    /\ overall_score r == Py.sum (map calculate (components r))
    /\ 0 <= Py.sum (map calculate (components r)) <= 1.
Proof.
  intros Hkeys Hnn Htot Hrel Hr Hc Ha Hn Hf.
  pose proof (source_reliability_in_range self source_type Hrel) as V1.
  pose proof (freshness_in_unit now created_at) as V2.
  pose proof (completeness_in_unit content completeness Hc) as V4.
  pose proof (citation_score_in_unit citation_count Hn) as V6.
  assert (Hcore : has_core_weights self = true).
  { unfold has_core_weights, has_key. apply forallb_forall. intros f Hf'.
    rewrite <- Hkeys in Hf'.
    destruct (dict_get factor_eqb f (factor_weights self)) eqn:E;
      [reflexivity|].
    exfalso. clear - Hf' E. unfold Py.keys in Hf'.
    induction (factor_weights self) as [|[k v] d IH]; [contradiction|].
    cbn [dict_get] in E. cbn [map fst In] in Hf'.
    destruct (factor_eqb k f) eqn:Ek; [discriminate|].
    destruct Hf' as [->|Hin]; [rewrite factor_eqb_refl in Ek; discriminate|].
    apply IH; assumption. }
  rewrite score_content_written_out by exact Hcore. cbv zeta.
  eexists. split; [reflexivity|]. cbn [overall_score components].
  set (sv := _score_source_reliability self source_type) in *.
  set (fv := _score_freshness now created_at) in *.
  set (cv := _score_completeness content completeness) in *.
  set (nv := Qmin (inject_Z citation_count / 10) 1.0) in *.
  assert (Hsum : 0 <= Py.sum (map calculate
     [ mkComponent SOURCE_RELIABILITY
         (weight_or_zero (factor_weights self) SOURCE_RELIABILITY) sv;
       mkComponent CONTENT_FRESHNESS
         (weight_or_zero (factor_weights self) CONTENT_FRESHNESS) fv;
       mkComponent RELEVANCE
         (weight_or_zero (factor_weights self) RELEVANCE) relevance;
       mkComponent COMPLETENESS
         (weight_or_zero (factor_weights self) COMPLETENESS) cv;
       mkComponent ACCURACY
         (weight_or_zero (factor_weights self) ACCURACY) accuracy;
       mkComponent CITATION_COUNT
         (weight_or_zero (factor_weights self) CITATION_COUNT) nv;
       mkComponent USER_FEEDBACK
         (weight_or_zero (factor_weights self) USER_FEEDBACK) feedback ]) <= 1).
  { unfold weights_total in Htot. unfold nonneg_weights in Hnn.
    destruct (factor_weights self) as [|[k1 w1] [|[k2 w2] [|[k3 w3]
      [|[k4 w4] [|[k5 w5] [|[k6 w6] [|[k7 w7] [|? ?]]]]]]]];
      try discriminate Hkeys.
    injection Hkeys as -> -> -> -> -> -> ->.
    unfold weight_or_zero. cbn [dict_get factor_eqb].
    unfold Py.sum in *. cbn [map fold_left Py.values snd] in *.
    unfold calculate. cbn [value weight].
    repeat match goal with
           | H : Forall _ (_ :: _) |- _ => inversion H; clear H; subst
           end.
    cbn [snd] in *.
    pose proof (weighted_within w1 sv ltac:(assumption) V1).
    pose proof (weighted_within w2 fv ltac:(assumption) V2).
    pose proof (weighted_within w3 relevance ltac:(assumption) Hr).
    pose proof (weighted_within w4 cv ltac:(assumption) V4).
    pose proof (weighted_within w5 accuracy ltac:(assumption) Ha).
    pose proof (weighted_within w6 nv ltac:(assumption) V6).
    pose proof (weighted_within w7 feedback ltac:(assumption) Hf).
    split; lra. }
  split; [apply clamp_inactive, Hsum | exact Hsum].
Qed.

Lemma score_content_is_weighted_sum_witness :
  exists r : ScoreResult,
    score_content init 0 "This is a test document" "memory" 0 (4 # 5) (7 # 10)
      (9 # 10) 5 (1 # 2) = Ok r
    /\ overall_score r == Py.sum (map calculate (components r))
    /\ 0 <= Py.sum (map calculate (components r)) <= 1.
Proof.
  apply (score_content_is_weighted_sum init 0 "This is a test document"
           "memory" 0 (4 # 5) (7 # 10) (9 # 10) 5 (1 # 2)).
  - reflexivity.
  - unfold nonneg_weights. simpl. repeat constructor; discriminate.
  - reflexivity.
  - unfold reliabilities_in_range. simpl.
    repeat (constructor; [split; discriminate|]). constructor.
  - split; discriminate.
  - split; discriminate.
  - split; discriminate.
  - lia.
  - split; discriminate.
Defined.

End ScorerBehaviour.

(** * Further properties of the registry and the router *)

Section SortingFacts.

Context {A : Type} (lt : A -> A -> bool).

Lemma insert_desc_permutation (x : A) (l : list A) :
  Permutation (x :: l) (insert_desc lt x l).
Proof.
  induction l as [|y l IH]; simpl.
  - apply Permutation_refl.
  - destruct (lt x y).
    + eapply perm_trans; [apply perm_swap|]. apply perm_skip, IH.
    + apply Permutation_refl.
Qed.

Lemma sorted_desc_permutation (l : list A) :
  Permutation l (sorted_desc lt l).
Proof.
  induction l as [|x l IH]; simpl.
  - apply perm_nil.
  - eapply perm_trans; [apply perm_skip, IH | apply insert_desc_permutation].
Qed.

(** The order [le] that [lt] decides: total and transitive. *)
Variable le : A -> A -> Prop.
Hypothesis lt_true : forall a b, lt a b = true -> le a b.
Hypothesis lt_false : forall a b, lt a b = false -> le b a.
Hypothesis le_trans : forall a b c, le a b -> le b c -> le a c.

Lemma insert_desc_sorted (x : A) (l : list A) :
  StronglySorted (fun a b => le b a) l ->
  StronglySorted (fun a b => le b a) (insert_desc lt x l).
Proof.
  induction 1 as [|y l Hl IH Hy]; simpl.
  - repeat constructor.
  - destruct (lt x y) eqn:E.
    + constructor; [exact IH|].
      eapply Permutation_Forall; [apply insert_desc_permutation|].
      constructor; [apply lt_true, E | exact Hy].
    + pose proof (lt_false _ _ E) as Hxy.
      constructor; [constructor; assumption|].
      constructor; [exact Hxy|].
      eapply Forall_impl; [|exact Hy]. intros b Hb. simpl in Hb.
      eapply le_trans; eassumption.
Qed.

Lemma sorted_desc_sorted (l : list A) :
  StronglySorted (fun a b => le b a) (sorted_desc lt l).
Proof.
  induction l as [|x l IH]; simpl.
  - constructor.
  - apply insert_desc_sorted, IH.
Qed.

(** Stability: elements that [p] groups together, none of them below
    another, keep their order. *)
Variable p : A -> bool.
Hypothesis p_ties : forall a b, p a = true -> p b = true -> lt a b = false.

Lemma insert_desc_keeps_ties (x : A) (l : list A) :
  filter p (insert_desc lt x l) = filter p (x :: l).
Proof.
  induction l as [|y l IH]; [reflexivity|].
  cbn [insert_desc]. destruct (lt x y) eqn:E; [|reflexivity].
  cbn [filter] in *. rewrite IH.
  destruct (p x) eqn:Px; destruct (p y) eqn:Py; try reflexivity.
  rewrite (p_ties x y Px Py) in E. discriminate.
Qed.

Lemma sorted_desc_keeps_ties (l : list A) :
  filter p (sorted_desc lt l) = filter p l.
Proof.
  induction l as [|x l IH]; [reflexivity|].
  cbn [sorted_desc]. rewrite insert_desc_keeps_ties.
  cbn [filter]. rewrite IH. reflexivity.
Qed.

End SortingFacts.

Section RegistryBehaviour.

Import Router.

Context {Handler : Type}.

Implicit Types self : ContentRouter Handler.

(** X11.  [register_source] enters the source under its id with the type,
    handler and priority given and with zeroed metrics, and leaves every
    other entry as it was.  The id keeps its place in the registry when it
    was registered before and goes last otherwise. *)
Theorem register_source_then_lookup self (now : Z) (id ty : string)
  (h : Handler) (prio : Z) :
  dict_get String.eqb id
    (registered_sources (register_source now id ty h prio self))
  = Some (mkInfo ty h prio now)
  /\ dict_get String.eqb id
       (source_metrics (register_source now id ty h prio self))
     = Some zero_metrics
  /\ (forall other, other <> id ->
        dict_get String.eqb other
          (registered_sources (register_source now id ty h prio self))
        = dict_get String.eqb other (registered_sources self)
        /\ dict_get String.eqb other
             (source_metrics (register_source now id ty h prio self))
           = dict_get String.eqb other (source_metrics self))
  /\ Py.keys (registered_sources (register_source now id ty h prio self))
     = (if is_registered self id
        then Py.keys (registered_sources self)
        else Py.keys (registered_sources self) ++ [id])
  /\ routing_decisions_log (register_source now id ty h prio self)
     = routing_decisions_log self.
Proof.
  unfold register_source.
  cbn [registered_sources source_metrics routing_decisions_log].
  split; [apply (Dict.get_set_same _ String.eqb_eq)|].
  split; [apply (Dict.get_set_same _ String.eqb_eq)|].
  split; [|split; [apply Dict.keys_set | reflexivity]].
  intros other Hne.
  split; apply (Dict.get_set_other _ String.eqb_eq); congruence.
Qed.

Lemma init_synced (default : string) : synced (@init Handler default).
Proof. reflexivity. Qed.

Lemma register_source_synced self (now : Z) (id ty : string) (h : Handler)
  (prio : Z) :
  synced self -> synced (register_source now id ty h prio self).
Proof.
  unfold synced, register_source. cbn [registered_sources source_metrics].
  intro H. rewrite !Dict.keys_set, H. reflexivity.
Qed.

Lemma dict_get_of_key {V : Type} (k : string) (d : list (string * V)) :
  In k (Py.keys d) -> exists v, dict_get String.eqb k d = Some v.
Proof.
  induction d as [|[k' v'] d IH]; simpl; [contradiction|].
  intros [H|H].
  - subst k'. rewrite String.eqb_refl. eexists. reflexivity.
  - destruct (String.eqb k' k); [eexists; reflexivity | apply IH, H].
Qed.

(** With metrics for every key to be listed, [listings] never misses one. *)
Lemma listings_complete self (items : list (string * source_info Handler)) :
  incl (Py.keys items) (Py.keys (source_metrics self)) ->
  exists ls, listings self items = Ok ls
             /\ map listing_id ls = Py.keys items
             /\ map (fun l => (listing_id l, (listing_type l, listing_priority l)))
                  ls
                = map (fun e => (fst e, (type (snd e), priority (snd e)))) items.
Proof.
  induction items as [|[id info] items IH]; intro Hincl.
  - exists []. repeat split.
  - destruct IH as (ls & Hls & Hids & Hall).
    { intros k Hk. apply Hincl. right. exact Hk. }
    destruct (dict_get_of_key id (source_metrics self)) as [m Hm].
    { apply Hincl. left. reflexivity. }
    exists (mkListing id (type info) (priority info) m :: ls).
    cbn [listings]. unfold dict_item. rewrite Hm. cbn [Py.bind].
    rewrite Hls. cbn [Py.bind map Py.keys fst snd listing_id listing_type
                        listing_priority].
    unfold Py.keys in Hids. rewrite Hids, Hall. repeat split.
Qed.

Lemma priority_lt_true (a b : source_listing) :
  (listing_priority a <? listing_priority b)%Z = true ->
  (listing_priority a <= listing_priority b)%Z.
Proof. intro H. apply Z.ltb_lt in H. lia. Qed.

Lemma priority_lt_false (a b : source_listing) :
  (listing_priority a <? listing_priority b)%Z = false ->
  (listing_priority b <= listing_priority a)%Z.
Proof. intro H. apply Z.ltb_ge in H. exact H. Qed.

(** X12.  On a registry whose sources all have their metrics (which
    [__init__] and [register_source] ensure), [list_sources] does not fail:
    it returns one listing per registered source, each with the type and
    priority registered, in descending order of priority. *)
Theorem list_sources_sorted_listing self :
  synced self ->
  dict_ok (registered_sources self) ->
  exists ls : list source_listing,
    list_sources self = Ok ls
    /\ Permutation (map listing_id ls) (Py.keys (registered_sources self))
    /\ by_priority_desc ls
    /\ Forall (lists_registered self) ls.
Proof.
  intros Hsync Hok.
  destruct (listings_complete self (registered_sources self))
    as (ls & Hls & Hids & Hall).
  { rewrite Hsync. apply incl_refl. }
  exists (sorted_desc
            (fun a b => (listing_priority a <? listing_priority b)%Z) ls).
  unfold list_sources. rewrite Hls. cbn [Py.bind].
  split; [reflexivity|]. split; [|split].
  - rewrite <- Hids. apply Permutation_map, Permutation_sym,
      sorted_desc_permutation.
  - unfold by_priority_desc.
    apply (sorted_desc_sorted _
             (fun a b => (listing_priority a <= listing_priority b)%Z)).
    + apply priority_lt_true.
    + apply priority_lt_false.
    + intros a b c. apply Z.le_trans.
  - eapply Permutation_Forall; [apply sorted_desc_permutation|].
    apply Forall_forall. intros l Hl.
    apply (in_map (fun l => (listing_id l, (listing_type l, listing_priority l))))
      in Hl.
    rewrite Hall in Hl. apply in_map_iff in Hl.
    destruct Hl as ([id info] & Heq & Hin). cbn [fst snd] in Heq.
    injection Heq as Hid Hty Hpr. exists info.
    split; [|split; assumption].
    rewrite <- Hid. clear - Hok Hin. unfold dict_ok in Hok.
    induction (registered_sources self) as [|[k v] d IH];
      [contradiction|].
    inversion Hok as [|? ? Hnotin Hnd]; subst. cbn [dict_get].
    destruct Hin as [Heq|Hin].
    + injection Heq as -> ->. rewrite String.eqb_refl. reflexivity.
    + destruct (String.eqb_spec k id) as [->|Hne].
      * exfalso. apply Hnotin. apply (in_map fst) in Hin. exact Hin.
      * apply IH; assumption.
Qed.

(** The candidate [max] picks: strictly above all earlier ones, not below
    any later one. *)
Lemma max_by_priority_first_greatest (rest : list (string * Z)) :
  forall best,
  exists l1 l2,
    best :: rest = l1 ++ max_by_priority best rest :: l2
    /\ Forall (fun c => (snd c < snd (max_by_priority best rest))%Z) l1
    /\ Forall (fun c => (snd c <= snd (max_by_priority best rest))%Z) l2.
Proof.
  induction rest as [|c rest IH]; intro best; cbn [max_by_priority].
  - exists [], []. repeat split; constructor.
  - destruct (Z.ltb_spec (snd best) (snd c)) as [Hlt|Hge].
    + destruct (IH c) as (l1 & l2 & Heq & H1 & H2).
      exists (best :: l1), l2. split; [cbn [app]; rewrite <- Heq; reflexivity|].
      split; [|exact H2]. constructor; [|exact H1].
      destruct l1 as [|c' l1'].
      * cbn [app] in Heq. injection Heq as Hc _. rewrite <- Hc. exact Hlt.
      * cbn [app] in Heq. injection Heq as Hc _. subst c'.
        inversion H1; subst. lia.
    + destruct (IH best) as (l1 & l2 & Heq & H1 & H2).
      destruct l1 as [|b' l1'].
      * cbn [app] in Heq. injection Heq as Hb Hrest.
        exists [], (c :: l2). cbn [app].
        split; [rewrite <- Hb at 1; rewrite Hrest; reflexivity|].
        split; [constructor|]. constructor; [|exact H2].
        rewrite <- Hb. exact Hge.
      * cbn [app] in Heq. injection Heq as Hb Hrest. subst b'.
        exists (best :: c :: l1'), l2. cbn [app].
        split; [do 2 f_equal; exact Hrest|]. split; [|exact H2].
        inversion H1 as [|? ? Hb1 Hl1]; subst.
        constructor; [exact Hb1|]. constructor; [lia | exact Hl1].
Qed.

(** X13.  [_get_source_by_type] returns [None] exactly when no source of
    the type is registered.  Otherwise it returns, among the sources of the
    type in registration order, the first one of greatest priority: every
    earlier one has a strictly smaller priority and no registered source of
    the type has a greater one. *)
Theorem get_source_by_type_selects_first_greatest self (source_type : string) :
  (_get_source_by_type self source_type = None
   <-> has_source_of_type self source_type = false)
  /\ forall id,
       _get_source_by_type self source_type = Some id ->
       exists (prio : Z) (earlier later : list (string * Z)),
         candidates self source_type = earlier ++ (id, prio) :: later
         /\ Forall (fun c => (snd c < prio)%Z) earlier
         /\ Forall (fun c => (snd c <= prio)%Z) later
         /\ forall id' info',
              In (id', info') (registered_sources self) ->
              type info' = source_type -> (priority info' <= prio)%Z.
Proof.
  split.
  - pose proof (get_source_by_type_found self source_type) as Hf.
    destruct (has_source_of_type self source_type);
      destruct (_get_source_by_type self source_type) as [id|].
    + split; discriminate.
    + destruct (proj1 Hf eq_refl) as [id Hid]. discriminate.
    + assert (false = true); [|discriminate].
      apply Hf. exists id. reflexivity.
    + split; reflexivity.
  - intros id H. unfold _get_source_by_type in H.
    destruct (candidates self source_type) as [|c rest] eqn:E; [discriminate|].
    injection H as <-.
    destruct (max_by_priority_first_greatest rest c) as (l1 & l2 & Heq & H1 & H2).
    exists (snd (max_by_priority c rest)), l1, l2.
    split; [rewrite Heq at 1; destruct (max_by_priority c rest); reflexivity|].
    split; [exact H1|]. split; [exact H2|].
    intros id' info' Hin Hty.
    assert (Hc : In (id', priority info') (c :: rest)).
    { rewrite <- E. unfold candidates.
      apply (in_map (fun entry => (fst entry, priority (snd entry)))
               _ (id', info')).
      apply filter_In. split; [exact Hin|]. cbn [snd].
      apply String.eqb_eq. exact Hty. }
    rewrite Heq in Hc. apply in_app_or in Hc. destruct Hc as [Hc|[Hc|Hc]].
    + rewrite Forall_forall in H1. specialize (H1 _ Hc). cbn [snd] in H1. lia.
    + rewrite Hc. cbn [snd]. lia.
    + rewrite Forall_forall in H2. specialize (H2 _ Hc). exact H2.
Qed.

(** An id a lookup returns is a key of the registry. *)
Lemma lookup_is_key self (source_type id : string) :
  _get_source_by_type self source_type = Some id ->
  In id (Py.keys (registered_sources self)).
Proof.
  intro H. destruct (get_source_by_type_registered _ _ _ H) as (info & Hin & _).
  apply (in_map fst) in Hin. exact Hin.
Qed.

Lemma lookup_truthy self (source_type : string) :
  all_ids_named self = true ->
  truthy_opt (_get_source_by_type self source_type)
  = match _get_source_by_type self source_type with
    | Some _ => true
    | None => false
    end.
Proof.
  intro Hn. destruct (_get_source_by_type self source_type) as [id|] eqn:E;
    [|reflexivity].
  cbn [truthy_opt]. unfold all_ids_named in Hn. rewrite forallb_forall in Hn.
  apply Hn. eapply lookup_is_key, E.
Qed.

(** X14.  When no source is registered under the empty id, memory-first
    selects by what the two lookups find: the memory source followed by the
    web-search source; the memory source alone; the web-search source alone
    with the fallback note; or nothing, at quality 0.5 instead of 0.8. *)
Theorem memory_first_by_lookups self (query : string)
  (context : RequestContext) :
  all_ids_named self = true ->
  _route_memory_first self query context
  = match _get_source_by_type self "memory",
          _get_source_by_type self "web_search" with
    | Some m, Some w =>
        mkDecision MEMORY_FIRST [m; w] 0.8
          "Memory-first strategy: querying memory first, with web fallback"
    | Some m, None =>
        mkDecision MEMORY_FIRST [m] 0.8
          "Memory-first strategy: querying memory first"
    | None, Some w =>
        mkDecision MEMORY_FIRST [w] 0.8
          "No memory source available, using web search"
    | None, None => mkDecision MEMORY_FIRST [] 0.5 "Memory-first strategy: "
    end.
Proof.
  intro Hn. unfold _route_memory_first.
  rewrite !(lookup_truthy self _ Hn).
  destruct (_get_source_by_type self "memory");
    destruct (_get_source_by_type self "web_search"); reflexivity.
Qed.

(** X15.  When no source is registered under the empty id, external-first
    selects the web-search source, then the memory source, each if found;
    the quality is 0.85 only when both are selected and 0.6 otherwise, an
    empty selection included. *)
Theorem external_first_by_lookups self (query : string)
  (context : RequestContext) :
  all_ids_named self = true ->
  _route_external_first self query context
  = match _get_source_by_type self "web_search",
          _get_source_by_type self "memory" with
    | Some w, Some m =>
        mkDecision EXTERNAL_FIRST [w; m] 0.85
          "External-first strategy: querying 2 sources"
    | Some w, None =>
        mkDecision EXTERNAL_FIRST [w] 0.6
          "External-first strategy: querying 1 sources"
    | None, Some m =>
        mkDecision EXTERNAL_FIRST [m] 0.6
          "External-first strategy: querying 1 sources"
    | None, None =>
        mkDecision EXTERNAL_FIRST [] 0.6
          "External-first strategy: querying 0 sources"
    end.
Proof.
  intro Hn. unfold _route_external_first.
  rewrite !(lookup_truthy self _ Hn).
  destruct (_get_source_by_type self "memory");
    destruct (_get_source_by_type self "web_search"); reflexivity.
Qed.

(** X16.  When no source is registered under the empty id, memory-only and
    external-only select the one source their lookup finds, at quality
    0.75 and 0.7, or nothing at quality 0.0; neither ever selects a source
    of another type. *)
Theorem single_type_strategies_by_lookup self (query : string)
  (context : RequestContext) :
  all_ids_named self = true ->
  _route_memory_only self query context
  = match _get_source_by_type self "memory" with
    | Some m => mkDecision MEMORY_ONLY [m] 0.75 "Memory-only strategy"
    | None => mkDecision MEMORY_ONLY [] 0.0 "Memory-only strategy"
    end
  /\ _route_external_only self query context
     = match _get_source_by_type self "web_search" with
       | Some w => mkDecision EXTERNAL_ONLY [w] 0.7 "External-only strategy"
       | None => mkDecision EXTERNAL_ONLY [] 0.0 "External-only strategy"
       end
  /\ (forall id info,
        In id (sources_to_query (_route_memory_only self query context)) ->
        In (id, info) (registered_sources self) ->
        dict_ok (registered_sources self) -> type info = "memory"%string)
  /\ (forall id info,
        In id (sources_to_query (_route_external_only self query context)) ->
        In (id, info) (registered_sources self) ->
        dict_ok (registered_sources self) -> type info = "web_search"%string).
Proof.
  intro Hn.
  assert (Hm : _route_memory_only self query context
               = match _get_source_by_type self "memory" with
                 | Some m => mkDecision MEMORY_ONLY [m] 0.75 "Memory-only strategy"
                 | None => mkDecision MEMORY_ONLY [] 0.0 "Memory-only strategy"
                 end).
  { unfold _route_memory_only. rewrite (lookup_truthy self _ Hn).
    destruct (_get_source_by_type self "memory"); reflexivity. }
  assert (He : _route_external_only self query context
               = match _get_source_by_type self "web_search" with
                 | Some w =>
                     mkDecision EXTERNAL_ONLY [w] 0.7 "External-only strategy"
                 | None => mkDecision EXTERNAL_ONLY [] 0.0 "External-only strategy"
                 end).
  { unfold _route_external_only. rewrite (lookup_truthy self _ Hn).
    destruct (_get_source_by_type self "web_search"); reflexivity. }
  split; [exact Hm|]. split; [exact He|]. split.
  - rewrite Hm. intros id info Hin Hreg Hok.
    destruct (_get_source_by_type self "memory") as [m|] eqn:E;
      cbn [sources_to_query] in Hin; [|contradiction].
    destruct Hin as [<-|[]].
    destruct (get_source_by_type_registered _ _ _ E) as (i & Hi & Hty).
    rewrite (Dict.value_unique m info i _ Hok Hreg Hi). exact Hty.
  - rewrite He. intros id info Hin Hreg Hok.
    destruct (_get_source_by_type self "web_search") as [w|] eqn:E;
      cbn [sources_to_query] in Hin; [|contradiction].
    destruct Hin as [<-|[]].
    destruct (get_source_by_type_registered _ _ _ E) as (i & Hi & Hty).
    rewrite (Dict.value_unique w info i _ Hok Hreg Hi). exact Hty.
Qed.

(** X17.  The balanced strategy selects every registered id, in
    registration order, whatever the types.  Registering a source therefore
    extends the balanced selection by that id at the end when the id is
    new, and leaves it as it was when the id was registered before. *)
Theorem balanced_follows_registration self (now : Z) (id ty : string)
  (h : Handler) (prio : Z) (query : string) (context : RequestContext) :
  sources_to_query (_route_balanced self query context)
  = Py.keys (registered_sources self)
  /\ sources_to_query
       (_route_balanced (register_source now id ty h prio self) query context)
     = (if is_registered self id
        then sources_to_query (_route_balanced self query context)
        else sources_to_query (_route_balanced self query context) ++ [id])
  /\ expected_quality (_route_balanced self query context) = 0.9.
Proof.
  unfold _route_balanced. cbn [sources_to_query expected_quality].
  split; [reflexivity|]. split; [|reflexivity].
  unfold register_source. cbn [registered_sources]. apply Dict.keys_set.
Qed.

(** [route_request] changes nothing but the decision log. *)
Lemma route_request_frame self (stamp query : string)
  (strategy : option string) (context : option RequestContext) :
  registered_sources (snd (route_request stamp query strategy context self))
  = registered_sources self
  /\ source_metrics (snd (route_request stamp query strategy context self))
     = source_metrics self
  /\ default_strategy (snd (route_request stamp query strategy context self))
     = default_strategy self.
Proof.
  rewrite route_request_by_strategy.
  destruct (known_strategy (effective_strategy self strategy));
    repeat split.
Qed.

Lemma handler_reads_registry (s : RoutingStrategy) self1 self2
  (query : string) (context : RequestContext) :
  registered_sources self1 = registered_sources self2 ->
  handler_of s self1 query context = handler_of s self2 query context.
Proof.
  intro H.
  assert (Hl : forall t, _get_source_by_type self1 t = _get_source_by_type self2 t).
  { intro t. unfold _get_source_by_type, candidates. rewrite H. reflexivity. }
  destruct s; cbn [handler_of];
    unfold _route_memory_first, _route_external_first, _route_balanced,
      _route_memory_only, _route_external_only;
    rewrite ?Hl, ?H; reflexivity.
Qed.

(** X18.  [route_request] reads the registry and writes only the decision
    log: the registry, the metrics and the default strategy are as before,
    the log has one more entry after a decision and none after an error,
    and the same request repeated on the router it leaves gets the same
    answer. *)
Theorem route_request_only_appends_to_log self (stamp stamp' query : string)
  (strategy : option string) (context : option RequestContext) :
  registered_sources (snd (route_request stamp query strategy context self))
  = registered_sources self
  /\ source_metrics (snd (route_request stamp query strategy context self))
     = source_metrics self
  /\ default_strategy (snd (route_request stamp query strategy context self))
     = default_strategy self
  /\ List.length
       (routing_decisions_log
          (snd (route_request stamp query strategy context self)))
     = (List.length (routing_decisions_log self)
        + match fst (route_request stamp query strategy context self) with
          | Ok _ => 1
          | Raise _ => 0
          end)%nat
  /\ fst (route_request stamp' query strategy context
            (snd (route_request stamp query strategy context self)))
     = fst (route_request stamp query strategy context self).
Proof.
  destruct (route_request_frame self stamp query strategy context)
    as (Hreg & Hmet & Hdef).
  split; [exact Hreg|]. split; [exact Hmet|]. split; [exact Hdef|]. split.
  - rewrite route_request_by_strategy.
    destruct (known_strategy (effective_strategy self strategy)).
    + cbv zeta. cbn [fst snd]. unfold _log_routing_decision.
      cbn [routing_decisions_log]. rewrite length_app. reflexivity.
    + cbn [fst snd]. lia.
  - rewrite (route_request_by_strategy
               (snd (route_request stamp query strategy context self))).
    assert (He : effective_strategy
                   (snd (route_request stamp query strategy context self))
                   strategy
                 = effective_strategy self strategy).
    { unfold effective_strategy. rewrite Hdef. reflexivity. }
    rewrite He. rewrite (route_request_by_strategy self stamp).
    destruct (known_strategy (effective_strategy self strategy)) as [s|].
    + cbv zeta. cbn [fst snd]. f_equal.
      apply handler_reads_registry. reflexivity.
    + reflexivity.
Qed.

End RegistryBehaviour.

(** * Further properties of the synthesis *)

Section SynthesisBehaviour.

Import Router.

Lemma contradictions_with_nothing (b : ContentBlock.t)
  (later : list ContentBlock.t) :
  contradictions_with b later = [].
Proof. induction later as [|b2 later IH]; [reflexivity | exact IH]. Qed.

Lemma contradictions_from_nothing (blocks : list ContentBlock.t) :
  contradictions_from blocks = [].
Proof.
  induction blocks as [|b blocks IH]; [reflexivity|].
  cbn [contradictions_from]. rewrite contradictions_with_nothing. exact IH.
Qed.

(** X19.  The pairwise contradiction scan reports nothing, whatever the
    blocks; the recommendations computed from its result therefore never
    carry the "Verify ... contradiction(s)" entry and are the gap entry,
    the multiple-sources entry and the refine-query entry, each if due, in
    that order. *)
Theorem find_contradictions_reports_nothing
  (content_blocks : list ContentBlock.t) (gaps : list string) :
  _find_contradictions content_blocks = []
  /\ _generate_recommendations content_blocks
       (_find_contradictions content_blocks) gaps
     = match gaps with
       | [] => []
       | gap0 :: _ => [("Additional research needed: " ++ gap0)%string]
       end
       ++ (if (List.length content_blocks <? 2)%nat
           then ["Consult multiple sources for better coverage"%string]
           else [])
       ++ (if Py.lt (mean_relevance content_blocks) 0.6
           then ["Consider re-querying with refined search terms"%string]
           else []).
Proof.
  assert (H : _find_contradictions content_blocks = []).
  { unfold _find_contradictions.
    destruct (2 <=? List.length content_blocks)%nat;
      [apply contradictions_from_nothing | reflexivity]. }
  split; [exact H|]. rewrite H. unfold _generate_recommendations.
  destruct gaps as [|gap0 gaps];
    destruct (List.length content_blocks <? 2)%nat;
    destruct (Py.lt (mean_relevance content_blocks) 0.6); reflexivity.
Qed.


Lemma prefix_app (t a b : string) :
  String.prefix t a = true -> String.prefix t (a ++ b) = true.
Proof.
  revert t. induction a as [|c a IH]; intros t H; destruct t as [|d t];
    simpl in *; try reflexivity; try discriminate.
  - destruct b; reflexivity.
  - destruct (ascii_dec d c); [apply IH, H | discriminate].
Qed.

Lemma contains_app_l (t a b : string) :
  Py.contains t a = true -> Py.contains t (a ++ b) = true.
Proof.
  induction a as [|c a IH]; cbn [Py.contains String.append].
  - destruct (String.prefix t EmptyString) eqn:E; [|discriminate].
    intros _. apply (prefix_app t EmptyString b) in E. cbn [String.append] in E.
    destruct b; cbn [Py.contains]; rewrite E; reflexivity.
  - destruct (String.prefix t (String c a)) eqn:E.
    + intros _. apply (prefix_app _ _ b) in E. cbn [String.append] in E.
      rewrite E. reflexivity.
    + intro H. rewrite (IH H).
      destruct (String.prefix t (String c (a ++ b))); reflexivity.
Qed.

Lemma contains_app_r (t a b : string) :
  Py.contains t b = true -> Py.contains t (a ++ b) = true.
Proof.
  intro H. induction a as [|c a IH]; cbn [Py.contains String.append].
  - exact H.
  - rewrite IH. destruct (String.prefix t (String c (a ++ b))); reflexivity.
Qed.

(** What occurs in one of the joined strings occurs in the joined text. *)
Lemma contains_join (t sep x : string) (xs : list string) :
  In x xs -> Py.contains t x = true -> Py.contains t (Py.join sep xs) = true.
Proof.
  intros Hin Hx. induction xs as [|y xs IH]; [contradiction|].
  destruct Hin as [->|Hin].
  - destruct xs as [|z xs]; [exact Hx|].
    cbn [Py.join]. apply contains_app_l, Hx.
  - destruct xs as [|z xs]; [contradiction|].
    change (Py.join sep (y :: z :: xs))
      with (y ++ sep ++ Py.join sep (z :: xs))%string.
    apply contains_app_r, contains_app_r, IH, Hin.
Qed.

(** X21.  The gaps are the coverage entry, if any term is missing, followed
    by the entry for an empty or single-block input.  A term is reported
    missing only if it is a whitespace-separated term of the lowercased
    query, longer than three characters, that occurs in the lowercased body
    of no block. *)
Theorem identify_gaps_reports_uncovered_terms
  (content_blocks : list ContentBlock.t) (query : string) :
  _identify_gaps content_blocks query
  = match missing_terms content_blocks query with
    | [] => []
    | _ => [("Missing coverage on: "
               ++ Py.join ", " (missing_terms content_blocks query))%string]
    end
    ++ match content_blocks with
       | [] => ["No content available for query"%string]
       | [_] =>
           ["Only single source available, multiple sources recommended"
            %string]
       | _ => []
       end
  /\ forall term,
       In term (missing_terms content_blocks query) ->
       In term (Py.split (Py.lower query))
       /\ (3 < String.length term)%nat
       /\ forall b, In b content_blocks ->
                    Py.contains term (Py.lower (ContentBlock.body b)) = false.
Proof.
  split.
  - unfold _identify_gaps. fold (combined_text content_blocks).
    fold (missing_terms content_blocks query).
    destruct (missing_terms content_blocks query);
      destruct content_blocks as [|b1 [|b2 rest]]; cbn [app];
      rewrite ?app_nil_r; reflexivity.
  - intros term Hin. unfold missing_terms in Hin. apply filter_In in Hin.
    destruct Hin as [Htok Hcond]. apply andb_true_iff in Hcond.
    destruct Hcond as [Hlen Hnot].
    split; [exact Htok|]. split; [apply Nat.ltb_lt, Hlen|].
    intros b Hb.
    destruct (Py.contains term (Py.lower (ContentBlock.body b))) eqn:E;
      [|reflexivity].
    apply negb_true_iff in Hnot. rewrite <- Hnot. symmetry.
    unfold combined_text. eapply contains_join; [|exact E].
    apply (in_map (fun block => Py.lower (ContentBlock.body block))), Hb.
Qed.

(** X22.  [_identify_gaps] reports no gap exactly when there are at least
    two blocks and no term is missing; it never reports more than two. *)
Theorem identify_gaps_empty_iff (content_blocks : list ContentBlock.t)
  (query : string) :
  (_identify_gaps content_blocks query = []
   <-> (2 <= List.length content_blocks)%nat
       /\ missing_terms content_blocks query = [])
  /\ (List.length (_identify_gaps content_blocks query) <= 2)%nat.
Proof.
  unfold _identify_gaps. fold (combined_text content_blocks).
  fold (missing_terms content_blocks query).
  destruct (missing_terms content_blocks query) as [|t ts];
    destruct content_blocks as [|b1 [|b2 rest]]; cbn [app List.length];
    (split; [|lia]); split;
    try discriminate;
    try (intros [H1 H2]; first [discriminate | lia | reflexivity]).
  intros _. split; [lia | reflexivity].
Qed.

Lemma lower_ascii_idempotent (c : ascii) :
  Py.lower_ascii (Py.lower_ascii c) = Py.lower_ascii c.
Proof.
  destruct c as [[] [] [] [] [] [] [] []]; reflexivity.
Qed.

Lemma lower_idempotent (s : string) : Py.lower (Py.lower s) = Py.lower s.
Proof.
  induction s as [|c s IH]; [reflexivity|].
  cbn [Py.lower]. rewrite lower_ascii_idempotent, IH. reflexivity.
Qed.

(** X23.  Gap detection ignores the letter case of the query: the query and
    its lowercased form yield the same gaps. *)
Theorem identify_gaps_ignores_query_case
  (content_blocks : list ContentBlock.t) (query : string) :
  _identify_gaps content_blocks (Py.lower query)
  = _identify_gaps content_blocks query.
Proof.
  unfold _identify_gaps. rewrite lower_idempotent. reflexivity.
Qed.

Lemma contains_in_empty (term : string) :
  (3 <? String.length term)%nat = true ->
  Py.contains term EmptyString = false.
Proof. destruct term; [discriminate | reflexivity]. Qed.

(** X24.  With no blocks at all, every term of the query longer than three
    characters is reported missing, "No content available for query" is
    the last gap, and the recommendations are, in this order: further
    research on the first gap, consulting multiple sources, and
    re-querying with refined terms. *)
Theorem synthesize_content_of_no_blocks_recommends (stamp : string) (now : Z)
  (query : string) :
  exists r : SynthesizedContent.t,
    synthesize_content stamp now query [] = Ok r
    /\ missing_terms [] query
       = filter (fun term => (3 <? String.length term)%nat)
           (Py.split (Py.lower query))
    /\ SynthesizedContent.gaps r
       = match missing_terms [] query with
         | [] => []
         | _ => [("Missing coverage on: "
                    ++ Py.join ", " (missing_terms [] query))%string]
         end ++ ["No content available for query"%string]
    /\ SynthesizedContent.recommendations r
       = [ ("Additional research needed: "
              ++ hd EmptyString (SynthesizedContent.gaps r))%string;
           "Consult multiple sources for better coverage"%string;
           "Consider re-querying with refined search terms"%string ].
Proof.
  eexists. split; [reflexivity|].
  cbn [SynthesizedContent.gaps SynthesizedContent.recommendations].
  split; [|split].
  - unfold missing_terms. apply filter_ext_in. intros term _.
    destruct (3 <? String.length term)%nat eqn:E; [|reflexivity].
    cbn [combined_text map Py.join]. rewrite (contains_in_empty term E).
    reflexivity.
  - unfold _identify_gaps. fold (combined_text []).
    fold (missing_terms [] query).
    destruct (missing_terms [] query); reflexivity.
  - unfold _generate_recommendations.
    cbn [_find_contradictions List.length Nat.leb Nat.ltb mean_relevance].
    unfold _identify_gaps. fold (combined_text []).
    fold (missing_terms [] query).
    destruct (missing_terms [] query); reflexivity.
Qed.

Lemma sum_within_count (xs : list Q) :
  Forall (fun x => 0 <= x <= 1) xs ->
  0 <= Py.sum xs <= inject_Z (Z.of_nat (List.length xs)).
Proof.
  induction 1 as [|x xs [Hx0 Hx1] _ [IH0 IH1]].
  - split; discriminate.
  - rewrite sum_cons. cbn [List.length]. rewrite Nat2Z.inj_succ.
    unfold Z.succ. rewrite inject_Z_plus. change (inject_Z 1) with 1.
    split; lra.
Qed.

(** X25.  The mean relevance of blocks whose scores lie in [0,1] lies in
    [0,1] itself, for the empty list too; the range check that builds a
    [SynthesizedContent] therefore never rejects it. *)
Theorem mean_relevance_passes_validation
  (content_blocks : list ContentBlock.t)
  (synthesis_id query aggregated : string) (sources : list ContentSource.t)
  (contradictions : list Contradiction) (gaps recommendations : list string)
  (timestamp : Z) :
  relevance_validated content_blocks ->
  0 <= mean_relevance content_blocks <= 1
  /\ SynthesizedContent.new synthesis_id query aggregated sources
       (mean_relevance content_blocks) contradictions gaps recommendations
       timestamp
     = Ok (SynthesizedContent.mk synthesis_id query aggregated sources
             (mean_relevance content_blocks) contradictions gaps
             recommendations timestamp).
Proof.
  intro Hv.
  assert (Hm : 0 <= mean_relevance content_blocks <= 1).
  { destruct content_blocks as [|b rest]; [split; discriminate|].
    unfold mean_relevance.
    assert (Hs := sum_within_count
                    (map ContentBlock.relevance_score (b :: rest))).
    rewrite length_map in Hs.
    destruct Hs as [Hs0 Hs1].
    { unfold relevance_validated in Hv. apply Forall_map. exact Hv. }
    assert (Hn : 0 < inject_Z (Z.of_nat (List.length (b :: rest)))).
    { change 0 with (inject_Z 0). rewrite <- Zlt_Qlt. cbn [List.length]. lia. }
    split.
    - apply Qle_shift_div_l; [exact Hn | lra].
    - apply Qle_shift_div_r; [exact Hn | lra]. }
  split; [exact Hm|]. unfold SynthesizedContent.new, Py.ge, Py.le.
  destruct Hm as [H0 H1]. apply Qle_bool_iff in H0. apply Qle_bool_iff in H1.
  rewrite H0, H1. reflexivity.
Qed.

Lemma same_relevance_ties (k : Q) (a b : ContentBlock.t) :
  same_relevance k a = true -> same_relevance k b = true ->
  relevance_lt a b = false.
Proof.
  unfold same_relevance, relevance_lt, Py.lt. intros Ha Hb.
  apply Qeq_bool_iff in Ha. apply Qeq_bool_iff in Hb.
  apply negb_false_iff, Qle_bool_iff. rewrite Ha, Hb. apply Qle_refl.
Qed.

(** X26.  The aggregated text lists every input block once, in descending
    order of relevance, blocks of equal relevance in their input order;
    each block appears as its body, a newline and "[Source: name]", and
    consecutive blocks are separated by an empty line. *)
Theorem aggregate_content_ranks_stably (content_blocks : list ContentBlock.t) :
  exists ranked : list ContentBlock.t,
    Permutation content_blocks ranked
    /\ descending ranked
    /\ (forall k, filter (same_relevance k) ranked
                  = filter (same_relevance k) content_blocks)
    /\ _aggregate_content content_blocks
       = Py.join (nl ++ nl)
           (map (fun b => (ContentBlock.body b ++ nl ++ "[Source: "
                             ++ ContentSource.name (ContentBlock.source b)
                             ++ "]")%string) ranked).
Proof.
  exists (sorted_desc relevance_lt content_blocks).
  split; [apply sorted_desc_permutation|].
  split; [apply sorted_desc_descending|]. split.
  - intro k. apply sorted_desc_keeps_ties. apply same_relevance_ties.
  - destruct content_blocks; reflexivity.
Qed.

(** X27.  [synthesize_content] returns a result for the empty block list
    and for no other input: any block makes the collection of the sources
    raise [TypeError]. *)
Theorem synthesize_content_returns_iff_no_blocks (stamp : string) (now : Z)
  (query : string) (content_blocks : list ContentBlock.t) :
  (exists r, synthesize_content stamp now query content_blocks = Ok r)
  <-> content_blocks = [].
Proof.
  split.
  - intros [r Hr]. destruct content_blocks as [|b rest]; [reflexivity|].
    rewrite synthesize_content_raises_on_blocks in Hr. discriminate.
  - intros ->. eexists. reflexivity.
Qed.

End SynthesisBehaviour.

(** ** Witnesses on the fixture *)

Lemma fixture_router_synced : synced fixture_router.
Proof. reflexivity. Qed.

Lemma list_sources_sorted_listing_witness :
  exists ls : list Router.source_listing,
    Router.list_sources fixture_router = Ok ls
    /\ Permutation (map Router.listing_id ls)
         (Py.keys (Router.registered_sources fixture_router))
    /\ by_priority_desc ls
    /\ Forall (lists_registered fixture_router) ls.
Proof.
  apply (list_sources_sorted_listing fixture_router).
  - reflexivity.
  - unfold dict_ok. simpl.
    repeat (constructor; [simpl; intuition discriminate|]). constructor.
Defined.

Lemma memory_first_by_lookups_witness :
  Router._route_memory_first fixture_router "test query" []
  = match Router._get_source_by_type fixture_router "memory",
          Router._get_source_by_type fixture_router "web_search" with
    | Some m, Some w =>
        Router.mkDecision Router.MEMORY_FIRST [m; w] 0.8
          "Memory-first strategy: querying memory first, with web fallback"
    | Some m, None =>
        Router.mkDecision Router.MEMORY_FIRST [m] 0.8
          "Memory-first strategy: querying memory first"
    | None, Some w =>
        Router.mkDecision Router.MEMORY_FIRST [w] 0.8
          "No memory source available, using web search"
    | None, None =>
        Router.mkDecision Router.MEMORY_FIRST [] 0.5 "Memory-first strategy: "
    end.
Proof.
  apply (memory_first_by_lookups fixture_router "test query" []).
  reflexivity.
Defined.

Lemma external_first_by_lookups_witness :
  Router._route_external_first fixture_router "test query" []
  = match Router._get_source_by_type fixture_router "web_search",
          Router._get_source_by_type fixture_router "memory" with
    | Some w, Some m =>
        Router.mkDecision Router.EXTERNAL_FIRST [w; m] 0.85
          "External-first strategy: querying 2 sources"
    | Some w, None =>
        Router.mkDecision Router.EXTERNAL_FIRST [w] 0.6
          "External-first strategy: querying 1 sources"
    | None, Some m =>
        Router.mkDecision Router.EXTERNAL_FIRST [m] 0.6
          "External-first strategy: querying 1 sources"
    | None, None =>
        Router.mkDecision Router.EXTERNAL_FIRST [] 0.6
          "External-first strategy: querying 0 sources"
    end.
Proof.
  apply (external_first_by_lookups fixture_router "test query" []).
  reflexivity.
Defined.

Lemma mean_relevance_passes_validation_witness :
  0 <= Router.mean_relevance [memory_block; web_block] <= 1
  /\ SynthesizedContent.new "syn_0" "test query" "" []
       (Router.mean_relevance [memory_block; web_block]) [] [] [] 0
     = Ok (SynthesizedContent.mk "syn_0" "test query" "" []
             (Router.mean_relevance [memory_block; web_block]) [] [] [] 0).
Proof.
  apply (mean_relevance_passes_validation [memory_block; web_block]
           "syn_0" "test query" "" [] [] [] [] 0).
  unfold relevance_validated.
  repeat (constructor; [split; discriminate|]). constructor.
Defined.

Lemma single_type_strategies_by_lookup_witness :
  Router._route_memory_only fixture_router "test query" []
  = match Router._get_source_by_type fixture_router "memory" with
    | Some m =>
        Router.mkDecision Router.MEMORY_ONLY [m] 0.75 "Memory-only strategy"
    | None =>
        Router.mkDecision Router.MEMORY_ONLY [] 0.0 "Memory-only strategy"
    end
  /\ Router._route_external_only fixture_router "test query" []
     = match Router._get_source_by_type fixture_router "web_search" with
       | Some w =>
           Router.mkDecision Router.EXTERNAL_ONLY [w] 0.7
             "External-only strategy"
       | None =>
           Router.mkDecision Router.EXTERNAL_ONLY [] 0.0
             "External-only strategy"
       end
  /\ (forall id info,
        In id (Router.sources_to_query
                 (Router._route_memory_only fixture_router "test query" [])) ->
        In (id, info) (Router.registered_sources fixture_router) ->
        dict_ok (Router.registered_sources fixture_router) ->
        Router.type info = "memory"%string)
  /\ (forall id info,
        In id (Router.sources_to_query
                 (Router._route_external_only fixture_router "test query" [])) ->
        In (id, info) (Router.registered_sources fixture_router) ->
        dict_ok (Router.registered_sources fixture_router) ->
        Router.type info = "web_search"%string).
Proof.
  apply (single_type_strategies_by_lookup fixture_router "test query" []).
  reflexivity.
Defined.
